(** * Serial Studio: the dashboard widget view-model (src/UI/Dashboard.cpp)

  A shallow embedding of [UI::Dashboard]: the per-kind widget vectors, the
  global-index walk ([widgetType], [relativeIndex]), the visibility vectors
  and the two frame slots ([resetData], [updateData]) together with the
  admission gate [selectLatestJSON].

  Conventions.
  - A C++ [int] is a [Z]; additions and subtractions go through
    [int_wrap], the two's-complement reduction to 32 bits.
  - A [QVector<T>] is a [list T]; [count()] is its length as a [Z].
    The vectors of the source hold pointers into the frame; nothing here
    writes through them, so they are modelled by the values pointed to.
  - A [QString] is a [string]; [toLower] acts on the letters A-Z.
  - A slot returns the new state and the signals it emitted, oldest
    first. *)

From Stdlib Require Import ZArith List Bool String Ascii Lia.
Import ListNotations.

Local Open Scope string_scope.
Local Open Scope list_scope.
Local Open Scope Z_scope.

(* ------------------------------------------------------------------ *)
(** ** 32-bit [int] arithmetic *)

Module Int.

Definition INT_MAX : Z := 2 ^ 31 - 1.
Definition INT_MIN : Z := - 2 ^ 31.

(** Reduction of an integer to the range of [int]. *)
Definition int_wrap (z : Z) : Z := (z + 2 ^ 31) mod 2 ^ 32 - 2 ^ 31.

Definition int_add (a b : Z) : Z := int_wrap (a + b).
Definition int_sub (a b : Z) : Z := int_wrap (a - b).

Definition in_int (z : Z) : Prop := INT_MIN <= z <= INT_MAX.

End Int.
Export Int.

(* ------------------------------------------------------------------ *)
(** ** Qt containers and strings *)

(** [QVector::count()]. *)
Definition count {A : Type} (v : list A) : Z := Z.of_nat (List.length v).

(** Outcome of an operation that indexes a vector: [QVector::operator[]]
  is only defined for [0 <= i < count()]. *)
Inductive Access (A : Type) : Type :=
| Done (a : A)
| OutOfRange.
Arguments Done {A} a.
Arguments OutOfRange {A}.

(** [vector[i]] as an rvalue. *)
Definition QVector_at {A : Type} (v : list A) (i : Z) : Access A :=
  if i <? 0 then OutOfRange
  else match nth_error v (Z.to_nat i) with
       | Some a => Done a
       | None => OutOfRange
       end.

Fixpoint replace_nth {A : Type} (v : list A) (n : nat) (a : A) : list A :=
  match v, n with
  | [], _ => []
  | _ :: tl, O => a :: tl
  | hd :: tl, S k => hd :: replace_nth tl k a
  end.

(** [vector[i] = a]. *)
Definition QVector_set {A : Type} (v : list A) (i : Z) (a : A)
  : Access (list A) :=
  if (i <? 0) || (count v <=? i) then OutOfRange
  else Done (replace_nth v (Z.to_nat i) a).

(** [QChar::toLower] on the ASCII letters. *)
Definition lower_ascii (c : ascii) : ascii :=
  let n := nat_of_ascii c in
  if (Nat.leb 65 n && Nat.leb n 90)%bool then ascii_of_nat (n + 32) else c.

(** [QString::toLower()]. *)
Fixpoint toLower (s : string) : string :=
  match s with
  | EmptyString => EmptyString
  | String c tl => String (lower_ascii c) (toLower tl)
  end.

(* ------------------------------------------------------------------ *)
(** ** The frame model (JSON::Dataset, JSON::Group, JSON::Frame)

  These classes are declared outside Dashboard.cpp; the records keep the
  members that the dashboard reads. *)

Record Dataset : Type := mkDataset {
  dataset_title : string;      (* title()  *)
  dataset_widget : string;     (* widget() *)
  dataset_graph : bool         (* graph()  *)
}.

Record Group : Type := mkGroup {
  group_title : string;            (* title()    *)
  group_widget : string;           (* widget()   *)
  group_datasets : list Dataset    (* datasets() *)
}.

Record Frame : Type := mkFrame {
  frame_title : string;        (* title()  *)
  frame_groups : list Group    (* groups() *)
}.

(** [JSON::Frame::groupCount()]. *)
Definition Frame_groupCount (f : Frame) : Z := count (frame_groups f).

(** The signals of the class. *)
Inductive Signal : Type :=
  | updated
  | dataReset
  | titleChanged
  | widgetCountChanged
  | widgetVisibilityChanged.

(** [Dashboard::WidgetType]. *)
Module WidgetType.
Inductive t : Type :=
  | Unknown
  | Group
  | Plot
  | Bar
  | Gauge
  | Thermometer
  | Compass
  | Gyroscope
  | Accelerometer
  | Map.
End WidgetType.

(** The order in which [widgetTitles], [widgetType] and [relativeIndex]
  go through the kinds. *)
Definition kind_table : list WidgetType.t :=
  [WidgetType.Group; WidgetType.Plot; WidgetType.Bar; WidgetType.Gauge;
   WidgetType.Thermometer; WidgetType.Compass; WidgetType.Gyroscope;
   WidgetType.Accelerometer; WidgetType.Map].

(* ------------------------------------------------------------------ *)
(** ** The dashboard *)

Section Dashboard.

(** The JSON object carried by a frame-info record.  Its format is not
    fixed by Dashboard.cpp. *)
Context {QJsonObject : Type}.

(** [JFI_Object]: a JSON document and the number of the frame it was
    generated for. *)
Record JFI_Object : Type := mkJFI {
  frameNumber : Z;
  jsonDocument : QJsonObject
}.

(** [JSON::Frame::read(object)]: called on the stored frame with a JSON
    object, it answers whether the object describes a frame and leaves
    the stored frame in a new state.  The function is defined outside
    Dashboard.cpp and is a parameter of the model. *)
Variable Frame_read : Frame -> QJsonObject -> bool * Frame.

(** [JFI_Empty()], defined outside Dashboard.cpp. *)
Variable JFI_Empty : JFI_Object.

(** The data members of the class. *)
Record Dashboard : Type := mkDashboard {
  m_latestFrame : Frame;
  m_latestJsonFrame : JFI_Object;
  m_barWidgets : list Dataset;
  m_mapWidgets : list Group;
  m_plotWidgets : list Dataset;
  m_gaugeWidgets : list Dataset;
  m_compassWidgets : list Dataset;
  m_gyroscopeWidgets : list Group;
  m_thermometerWidgets : list Dataset;
  m_accelerometerWidgets : list Group;
  m_barVisibility : list bool;
  m_mapVisibility : list bool;
  m_plotVisibility : list bool;
  m_gaugeVisibility : list bool;
  m_groupVisibility : list bool;
  m_compassVisibility : list bool;
  m_gyroscopeVisibility : list bool;
  m_thermometerVisibility : list bool;
  m_accelerometerVisibility : list bool
}.

(** *** Assignments to the data members *)

Definition set_latestFrame (d : Dashboard) (x : Frame) : Dashboard :=
  mkDashboard x (m_latestJsonFrame d) (m_barWidgets d) (m_mapWidgets d)
    (m_plotWidgets d) (m_gaugeWidgets d) (m_compassWidgets d)
    (m_gyroscopeWidgets d) (m_thermometerWidgets d) (m_accelerometerWidgets d)
    (m_barVisibility d) (m_mapVisibility d) (m_plotVisibility d)
    (m_gaugeVisibility d) (m_groupVisibility d) (m_compassVisibility d)
    (m_gyroscopeVisibility d) (m_thermometerVisibility d)
    (m_accelerometerVisibility d).

Definition set_latestJsonFrame (d : Dashboard) (x : JFI_Object) : Dashboard :=
  mkDashboard (m_latestFrame d) x (m_barWidgets d) (m_mapWidgets d)
    (m_plotWidgets d) (m_gaugeWidgets d) (m_compassWidgets d)
    (m_gyroscopeWidgets d) (m_thermometerWidgets d) (m_accelerometerWidgets d)
    (m_barVisibility d) (m_mapVisibility d) (m_plotVisibility d)
    (m_gaugeVisibility d) (m_groupVisibility d) (m_compassVisibility d)
    (m_gyroscopeVisibility d) (m_thermometerVisibility d)
    (m_accelerometerVisibility d).

Definition set_barWidgets (d : Dashboard) (x : list Dataset) : Dashboard :=
  mkDashboard (m_latestFrame d) (m_latestJsonFrame d) x (m_mapWidgets d)
    (m_plotWidgets d) (m_gaugeWidgets d) (m_compassWidgets d)
    (m_gyroscopeWidgets d) (m_thermometerWidgets d) (m_accelerometerWidgets d)
    (m_barVisibility d) (m_mapVisibility d) (m_plotVisibility d)
    (m_gaugeVisibility d) (m_groupVisibility d) (m_compassVisibility d)
    (m_gyroscopeVisibility d) (m_thermometerVisibility d)
    (m_accelerometerVisibility d).

Definition set_mapWidgets (d : Dashboard) (x : list Group) : Dashboard :=
  mkDashboard (m_latestFrame d) (m_latestJsonFrame d) (m_barWidgets d) x
    (m_plotWidgets d) (m_gaugeWidgets d) (m_compassWidgets d)
    (m_gyroscopeWidgets d) (m_thermometerWidgets d) (m_accelerometerWidgets d)
    (m_barVisibility d) (m_mapVisibility d) (m_plotVisibility d)
    (m_gaugeVisibility d) (m_groupVisibility d) (m_compassVisibility d)
    (m_gyroscopeVisibility d) (m_thermometerVisibility d)
    (m_accelerometerVisibility d).

Definition set_plotWidgets (d : Dashboard) (x : list Dataset) : Dashboard :=
  mkDashboard (m_latestFrame d) (m_latestJsonFrame d) (m_barWidgets d)
    (m_mapWidgets d) x (m_gaugeWidgets d) (m_compassWidgets d)
    (m_gyroscopeWidgets d) (m_thermometerWidgets d) (m_accelerometerWidgets d)
    (m_barVisibility d) (m_mapVisibility d) (m_plotVisibility d)
    (m_gaugeVisibility d) (m_groupVisibility d) (m_compassVisibility d)
    (m_gyroscopeVisibility d) (m_thermometerVisibility d)
    (m_accelerometerVisibility d).

Definition set_gaugeWidgets (d : Dashboard) (x : list Dataset) : Dashboard :=
  mkDashboard (m_latestFrame d) (m_latestJsonFrame d) (m_barWidgets d)
    (m_mapWidgets d) (m_plotWidgets d) x (m_compassWidgets d)
    (m_gyroscopeWidgets d) (m_thermometerWidgets d) (m_accelerometerWidgets d)
    (m_barVisibility d) (m_mapVisibility d) (m_plotVisibility d)
    (m_gaugeVisibility d) (m_groupVisibility d) (m_compassVisibility d)
    (m_gyroscopeVisibility d) (m_thermometerVisibility d)
    (m_accelerometerVisibility d).

Definition set_compassWidgets (d : Dashboard) (x : list Dataset) : Dashboard :=
  mkDashboard (m_latestFrame d) (m_latestJsonFrame d) (m_barWidgets d)
    (m_mapWidgets d) (m_plotWidgets d) (m_gaugeWidgets d) x
    (m_gyroscopeWidgets d) (m_thermometerWidgets d) (m_accelerometerWidgets d)
    (m_barVisibility d) (m_mapVisibility d) (m_plotVisibility d)
    (m_gaugeVisibility d) (m_groupVisibility d) (m_compassVisibility d)
    (m_gyroscopeVisibility d) (m_thermometerVisibility d)
    (m_accelerometerVisibility d).

Definition set_gyroscopeWidgets (d : Dashboard) (x : list Group) : Dashboard :=
  mkDashboard (m_latestFrame d) (m_latestJsonFrame d) (m_barWidgets d)
    (m_mapWidgets d) (m_plotWidgets d) (m_gaugeWidgets d) (m_compassWidgets d)
    x (m_thermometerWidgets d) (m_accelerometerWidgets d) (m_barVisibility d)
    (m_mapVisibility d) (m_plotVisibility d) (m_gaugeVisibility d)
    (m_groupVisibility d) (m_compassVisibility d) (m_gyroscopeVisibility d)
    (m_thermometerVisibility d) (m_accelerometerVisibility d).

Definition set_thermometerWidgets (d : Dashboard) (x : list Dataset) : Dashboard :=
  mkDashboard (m_latestFrame d) (m_latestJsonFrame d) (m_barWidgets d)
    (m_mapWidgets d) (m_plotWidgets d) (m_gaugeWidgets d) (m_compassWidgets d)
    (m_gyroscopeWidgets d) x (m_accelerometerWidgets d) (m_barVisibility d)
    (m_mapVisibility d) (m_plotVisibility d) (m_gaugeVisibility d)
    (m_groupVisibility d) (m_compassVisibility d) (m_gyroscopeVisibility d)
    (m_thermometerVisibility d) (m_accelerometerVisibility d).

Definition set_accelerometerWidgets (d : Dashboard) (x : list Group) : Dashboard :=
  mkDashboard (m_latestFrame d) (m_latestJsonFrame d) (m_barWidgets d)
    (m_mapWidgets d) (m_plotWidgets d) (m_gaugeWidgets d) (m_compassWidgets d)
    (m_gyroscopeWidgets d) (m_thermometerWidgets d) x (m_barVisibility d)
    (m_mapVisibility d) (m_plotVisibility d) (m_gaugeVisibility d)
    (m_groupVisibility d) (m_compassVisibility d) (m_gyroscopeVisibility d)
    (m_thermometerVisibility d) (m_accelerometerVisibility d).

Definition set_barVisibility (d : Dashboard) (x : list bool) : Dashboard :=
  mkDashboard (m_latestFrame d) (m_latestJsonFrame d) (m_barWidgets d)
    (m_mapWidgets d) (m_plotWidgets d) (m_gaugeWidgets d) (m_compassWidgets d)
    (m_gyroscopeWidgets d) (m_thermometerWidgets d) (m_accelerometerWidgets d)
    x (m_mapVisibility d) (m_plotVisibility d) (m_gaugeVisibility d)
    (m_groupVisibility d) (m_compassVisibility d) (m_gyroscopeVisibility d)
    (m_thermometerVisibility d) (m_accelerometerVisibility d).

Definition set_mapVisibility (d : Dashboard) (x : list bool) : Dashboard :=
  mkDashboard (m_latestFrame d) (m_latestJsonFrame d) (m_barWidgets d)
    (m_mapWidgets d) (m_plotWidgets d) (m_gaugeWidgets d) (m_compassWidgets d)
    (m_gyroscopeWidgets d) (m_thermometerWidgets d) (m_accelerometerWidgets d)
    (m_barVisibility d) x (m_plotVisibility d) (m_gaugeVisibility d)
    (m_groupVisibility d) (m_compassVisibility d) (m_gyroscopeVisibility d)
    (m_thermometerVisibility d) (m_accelerometerVisibility d).

Definition set_plotVisibility (d : Dashboard) (x : list bool) : Dashboard :=
  mkDashboard (m_latestFrame d) (m_latestJsonFrame d) (m_barWidgets d)
    (m_mapWidgets d) (m_plotWidgets d) (m_gaugeWidgets d) (m_compassWidgets d)
    (m_gyroscopeWidgets d) (m_thermometerWidgets d) (m_accelerometerWidgets d)
    (m_barVisibility d) (m_mapVisibility d) x (m_gaugeVisibility d)
    (m_groupVisibility d) (m_compassVisibility d) (m_gyroscopeVisibility d)
    (m_thermometerVisibility d) (m_accelerometerVisibility d).

Definition set_gaugeVisibility (d : Dashboard) (x : list bool) : Dashboard :=
  mkDashboard (m_latestFrame d) (m_latestJsonFrame d) (m_barWidgets d)
    (m_mapWidgets d) (m_plotWidgets d) (m_gaugeWidgets d) (m_compassWidgets d)
    (m_gyroscopeWidgets d) (m_thermometerWidgets d) (m_accelerometerWidgets d)
    (m_barVisibility d) (m_mapVisibility d) (m_plotVisibility d) x
    (m_groupVisibility d) (m_compassVisibility d) (m_gyroscopeVisibility d)
    (m_thermometerVisibility d) (m_accelerometerVisibility d).

Definition set_groupVisibility (d : Dashboard) (x : list bool) : Dashboard :=
  mkDashboard (m_latestFrame d) (m_latestJsonFrame d) (m_barWidgets d)
    (m_mapWidgets d) (m_plotWidgets d) (m_gaugeWidgets d) (m_compassWidgets d)
    (m_gyroscopeWidgets d) (m_thermometerWidgets d) (m_accelerometerWidgets d)
    (m_barVisibility d) (m_mapVisibility d) (m_plotVisibility d)
    (m_gaugeVisibility d) x (m_compassVisibility d) (m_gyroscopeVisibility d)
    (m_thermometerVisibility d) (m_accelerometerVisibility d).

Definition set_compassVisibility (d : Dashboard) (x : list bool) : Dashboard :=
  mkDashboard (m_latestFrame d) (m_latestJsonFrame d) (m_barWidgets d)
    (m_mapWidgets d) (m_plotWidgets d) (m_gaugeWidgets d) (m_compassWidgets d)
    (m_gyroscopeWidgets d) (m_thermometerWidgets d) (m_accelerometerWidgets d)
    (m_barVisibility d) (m_mapVisibility d) (m_plotVisibility d)
    (m_gaugeVisibility d) (m_groupVisibility d) x (m_gyroscopeVisibility d)
    (m_thermometerVisibility d) (m_accelerometerVisibility d).

Definition set_gyroscopeVisibility (d : Dashboard) (x : list bool) : Dashboard :=
  mkDashboard (m_latestFrame d) (m_latestJsonFrame d) (m_barWidgets d)
    (m_mapWidgets d) (m_plotWidgets d) (m_gaugeWidgets d) (m_compassWidgets d)
    (m_gyroscopeWidgets d) (m_thermometerWidgets d) (m_accelerometerWidgets d)
    (m_barVisibility d) (m_mapVisibility d) (m_plotVisibility d)
    (m_gaugeVisibility d) (m_groupVisibility d) (m_compassVisibility d) x
    (m_thermometerVisibility d) (m_accelerometerVisibility d).

Definition set_thermometerVisibility (d : Dashboard) (x : list bool) : Dashboard :=
  mkDashboard (m_latestFrame d) (m_latestJsonFrame d) (m_barWidgets d)
    (m_mapWidgets d) (m_plotWidgets d) (m_gaugeWidgets d) (m_compassWidgets d)
    (m_gyroscopeWidgets d) (m_thermometerWidgets d) (m_accelerometerWidgets d)
    (m_barVisibility d) (m_mapVisibility d) (m_plotVisibility d)
    (m_gaugeVisibility d) (m_groupVisibility d) (m_compassVisibility d)
    (m_gyroscopeVisibility d) x (m_accelerometerVisibility d).

Definition set_accelerometerVisibility (d : Dashboard) (x : list bool) : Dashboard :=
  mkDashboard (m_latestFrame d) (m_latestJsonFrame d) (m_barWidgets d)
    (m_mapWidgets d) (m_plotWidgets d) (m_gaugeWidgets d) (m_compassWidgets d)
    (m_gyroscopeWidgets d) (m_thermometerWidgets d) (m_accelerometerWidgets d)
    (m_barVisibility d) (m_mapVisibility d) (m_plotVisibility d)
    (m_gaugeVisibility d) (m_groupVisibility d) (m_compassVisibility d)
    (m_gyroscopeVisibility d) (m_thermometerVisibility d) x.

(** *** Misc member access functions *)

Definition title (d : Dashboard) : string := frame_title (m_latestFrame d).

(** *** Widget count functions *)

Definition mapCount (d : Dashboard) : Z := count (m_mapWidgets d).
Definition barCount (d : Dashboard) : Z := count (m_barWidgets d).
Definition plotCount (d : Dashboard) : Z := count (m_plotWidgets d).
Definition gaugeCount (d : Dashboard) : Z := count (m_gaugeWidgets d).
Definition groupCount (d : Dashboard) : Z := Frame_groupCount (m_latestFrame d).
Definition compassCount (d : Dashboard) : Z := count (m_compassWidgets d).
Definition gyroscopeCount (d : Dashboard) : Z := count (m_gyroscopeWidgets d).
Definition thermometerCount (d : Dashboard) : Z := count (m_thermometerWidgets d).
Definition accelerometerCount (d : Dashboard) : Z := count (m_accelerometerWidgets d).

(** [getGroup]: the group at [index] of the stored frame, [None] standing
    for [nullptr].  [QVector::at] is only defined inside the vector. *)
Definition getGroup (d : Dashboard) (index : Z) : Access (option Group) :=
  if index <? Frame_groupCount (m_latestFrame d) then
    match QVector_at (frame_groups (m_latestFrame d)) index with
    | Done group => Done (Some group)
    | OutOfRange => OutOfRange
    end
  else Done None.

Definition totalWidgetCount (d : Dashboard) : Z :=
  int_add (int_add (int_add (int_add (int_add (int_add (int_add (int_add
    (mapCount d)
    (barCount d))
    (plotCount d))
    (gaugeCount d))
    (groupCount d))
    (compassCount d))
    (gyroscopeCount d))
    (thermometerCount d))
    (accelerometerCount d).

Definition available (d : Dashboard) : bool := 0 <? totalWidgetCount d.

(** The count of one kind; [Unknown] has no widgets. *)
Definition widgetCount (k : WidgetType.t) (d : Dashboard) : Z :=
  match k with
  | WidgetType.Unknown => 0
  | WidgetType.Group => groupCount d
  | WidgetType.Plot => plotCount d
  | WidgetType.Bar => barCount d
  | WidgetType.Gauge => gaugeCount d
  | WidgetType.Thermometer => thermometerCount d
  | WidgetType.Compass => compassCount d
  | WidgetType.Gyroscope => gyroscopeCount d
  | WidgetType.Accelerometer => accelerometerCount d
  | WidgetType.Map => mapCount d
  end.

(** *** Relative-to-global widget index utility functions *)

Definition relativeIndex (d : Dashboard) (globalIndex : Z) : Z :=
  let index := globalIndex in
  if index <? groupCount d then index else
  let index := int_sub index (groupCount d) in
  if index <? plotCount d then index else
  let index := int_sub index (plotCount d) in
  if index <? barCount d then index else
  let index := int_sub index (barCount d) in
  if index <? gaugeCount d then index else
  let index := int_sub index (gaugeCount d) in
  if index <? thermometerCount d then index else
  let index := int_sub index (thermometerCount d) in
  if index <? compassCount d then index else
  let index := int_sub index (compassCount d) in
  if index <? gyroscopeCount d then index else
  let index := int_sub index (gyroscopeCount d) in
  if index <? accelerometerCount d then index else
  let index := int_sub index (accelerometerCount d) in
  if index <? mapCount d then index else
  -1.

Definition widgetType (d : Dashboard) (globalIndex : Z) : WidgetType.t :=
  if globalIndex <? 0 then WidgetType.Unknown else
  let index := globalIndex in
  if index <? groupCount d then WidgetType.Group else
  let index := int_sub index (groupCount d) in
  if index <? plotCount d then WidgetType.Plot else
  let index := int_sub index (plotCount d) in
  if index <? barCount d then WidgetType.Bar else
  let index := int_sub index (barCount d) in
  if index <? gaugeCount d then WidgetType.Gauge else
  let index := int_sub index (gaugeCount d) in
  if index <? thermometerCount d then WidgetType.Thermometer else
  let index := int_sub index (thermometerCount d) in
  if index <? compassCount d then WidgetType.Compass else
  let index := int_sub index (compassCount d) in
  if index <? gyroscopeCount d then WidgetType.Gyroscope else
  let index := int_sub index (gyroscopeCount d) in
  if index <? accelerometerCount d then WidgetType.Accelerometer else
  let index := int_sub index (accelerometerCount d) in
  if index <? mapCount d then WidgetType.Map else
  WidgetType.Unknown.

(** *** Widget utility functions *)

(** The datasets that need to be plotted, in frame order. *)
Definition getPlotWidgets (d : Dashboard) : list Dataset :=
  fold_left
    (fun widgets group =>
       fold_left
         (fun widgets dataset =>
            if dataset_graph dataset then widgets ++ [dataset] else widgets)
         (group_datasets group) widgets)
    (frame_groups (m_latestFrame d)) [].

(** The groups that implement the widget with the given handle. *)
Definition getWidgetGroups (d : Dashboard) (handle : string) : list Group :=
  fold_left
    (fun widgets group =>
       if String.eqb (toLower (group_widget group)) handle
       then widgets ++ [group] else widgets)
    (frame_groups (m_latestFrame d)) [].

(** The datasets that implement the widget with the given handle. *)
Definition getWidgetDatasets (d : Dashboard) (handle : string) : list Dataset :=
  fold_left
    (fun widgets group =>
       fold_left
         (fun widgets dataset =>
            if String.eqb (dataset_widget dataset) handle
            then widgets ++ [dataset] else widgets)
         (group_datasets group) widgets)
    (frame_groups (m_latestFrame d)) [].

Definition datasetTitles (vector : list Dataset) : list string :=
  fold_left (fun list set => list ++ [dataset_title set]) vector [].

Definition groupTitles (vector : list Group) : list string :=
  fold_left (fun list group => list ++ [group_title group]) vector [].

Definition getVisibility (vector : list bool) (index : Z) : Access bool :=
  if index <? count vector then QVector_at vector index else Done false.

Definition setVisibility (vector : list bool) (index : Z) (visible : bool)
  : Access (list bool * list Signal) :=
  if index <? count vector then
    match QVector_set vector index visible with
    | Done vector' => Done (vector', [widgetVisibilityChanged])
    | OutOfRange => OutOfRange
    end
  else Done (vector, []).

(** *** Widget visibility access functions *)

Definition barVisible (d : Dashboard) (index : Z) := getVisibility (m_barVisibility d) index.
Definition mapVisible (d : Dashboard) (index : Z) := getVisibility (m_mapVisibility d) index.
Definition plotVisible (d : Dashboard) (index : Z) := getVisibility (m_plotVisibility d) index.
Definition groupVisible (d : Dashboard) (index : Z) := getVisibility (m_groupVisibility d) index.
Definition gaugeVisible (d : Dashboard) (index : Z) := getVisibility (m_gaugeVisibility d) index.
Definition compassVisible (d : Dashboard) (index : Z) := getVisibility (m_compassVisibility d) index.
Definition gyroscopeVisible (d : Dashboard) (index : Z) := getVisibility (m_gyroscopeVisibility d) index.
Definition thermometerVisible (d : Dashboard) (index : Z) := getVisibility (m_thermometerVisibility d) index.
Definition accelerometerVisible (d : Dashboard) (index : Z) := getVisibility (m_accelerometerVisibility d) index.

(** The visibility vector of one kind. *)
Definition visibility (k : WidgetType.t) (d : Dashboard) : list bool :=
  match k with
  | WidgetType.Unknown => []
  | WidgetType.Group => m_groupVisibility d
  | WidgetType.Plot => m_plotVisibility d
  | WidgetType.Bar => m_barVisibility d
  | WidgetType.Gauge => m_gaugeVisibility d
  | WidgetType.Thermometer => m_thermometerVisibility d
  | WidgetType.Compass => m_compassVisibility d
  | WidgetType.Gyroscope => m_gyroscopeVisibility d
  | WidgetType.Accelerometer => m_accelerometerVisibility d
  | WidgetType.Map => m_mapVisibility d
  end.

Definition widgetVisible (d : Dashboard) (globalIndex : Z) : Access bool :=
  let index := relativeIndex d globalIndex in
  match widgetType d globalIndex with
  | WidgetType.Group => groupVisible d index
  | WidgetType.Plot => plotVisible d index
  | WidgetType.Bar => barVisible d index
  | WidgetType.Gauge => gaugeVisible d index
  | WidgetType.Thermometer => thermometerVisible d index
  | WidgetType.Compass => compassVisible d index
  | WidgetType.Gyroscope => gyroscopeVisible d index
  | WidgetType.Accelerometer => accelerometerVisible d index
  | WidgetType.Map => mapVisible d index
  | WidgetType.Unknown => Done false
  end.

Definition widgetIcon (d : Dashboard) (globalIndex : Z) : string :=
  match widgetType d globalIndex with
  | WidgetType.Group => "qrc:/icons/group.svg"
  | WidgetType.Plot => "qrc:/icons/plot.svg"
  | WidgetType.Bar => "qrc:/icons/bar.svg"
  | WidgetType.Gauge => "qrc:/icons/gauge.svg"
  | WidgetType.Thermometer => "qrc:/icons/thermometer.svg"
  | WidgetType.Compass => "qrc:/icons/compass.svg"
  | WidgetType.Gyroscope => "qrc:/icons/gyroscope.svg"
  | WidgetType.Accelerometer => "qrc:/icons/accelerometer.svg"
  | WidgetType.Map => "qrc:/icons/map.svg"
  | WidgetType.Unknown => "qrc:/icons/close.svg"
  end.

(** *** Widget title functions *)

Definition barTitles (d : Dashboard) := datasetTitles (m_barWidgets d).
Definition mapTitles (d : Dashboard) := groupTitles (m_mapWidgets d).
Definition plotTitles (d : Dashboard) := datasetTitles (m_plotWidgets d).
Definition frameGroupTitles (d : Dashboard) := groupTitles (frame_groups (m_latestFrame d)).
Definition gaugeTitles (d : Dashboard) := datasetTitles (m_gaugeWidgets d).
Definition compassTitles (d : Dashboard) := datasetTitles (m_compassWidgets d).
Definition gyroscopeTitles (d : Dashboard) := groupTitles (m_gyroscopeWidgets d).
Definition thermometerTitles (d : Dashboard) := datasetTitles (m_thermometerWidgets d).
Definition accelerometerTitles (d : Dashboard) := groupTitles (m_accelerometerWidgets d).

(** The titles of one kind ([frameGroupTitles] is the overload
    [groupTitles()] of the source, which takes no vector). *)
Definition kindTitles (k : WidgetType.t) (d : Dashboard) : list string :=
  match k with
  | WidgetType.Unknown => []
  | WidgetType.Group => frameGroupTitles d
  | WidgetType.Plot => plotTitles d
  | WidgetType.Bar => barTitles d
  | WidgetType.Gauge => gaugeTitles d
  | WidgetType.Thermometer => thermometerTitles d
  | WidgetType.Compass => compassTitles d
  | WidgetType.Gyroscope => gyroscopeTitles d
  | WidgetType.Accelerometer => accelerometerTitles d
  | WidgetType.Map => mapTitles d
  end.

Definition widgetTitles (d : Dashboard) : list string :=
  frameGroupTitles d ++
  plotTitles d ++
  barTitles d ++
  gaugeTitles d ++
  thermometerTitles d ++
  compassTitles d ++
  gyroscopeTitles d ++
  accelerometerTitles d ++
  mapTitles d.

(** *** Visibility-related slots *)

(** A slot that works on one visibility vector: the vector is read from
    the state with [get] and written back with [set]. *)
Definition onVisibility (get : Dashboard -> list bool)
    (set : Dashboard -> list bool -> Dashboard)
    (d : Dashboard) (i : Z) (v : bool) : Access (Dashboard * list Signal) :=
  match setVisibility (get d) i v with
  | Done (vector, signals) => Done (set d vector, signals)
  | OutOfRange => OutOfRange
  end.

Definition setBarVisible := onVisibility m_barVisibility set_barVisibility.
Definition setMapVisible := onVisibility m_mapVisibility set_mapVisibility.
Definition setPlotVisible := onVisibility m_plotVisibility set_plotVisibility.
Definition setGroupVisible := onVisibility m_groupVisibility set_groupVisibility.
Definition setGaugeVisible := onVisibility m_gaugeVisibility set_gaugeVisibility.
Definition setCompassVisible := onVisibility m_compassVisibility set_compassVisibility.
Definition setGyroscopeVisible := onVisibility m_gyroscopeVisibility set_gyroscopeVisibility.
Definition setThermometerVisible := onVisibility m_thermometerVisibility set_thermometerVisibility.
Definition setAccelerometerVisible := onVisibility m_accelerometerVisibility set_accelerometerVisibility.

(** *** Frame data handling slots *)

(** The block "Clear widget data" of [resetData] and [updateData]. *)
Definition clearWidgets (d : Dashboard) : Dashboard :=
  let d := set_barWidgets d [] in
  let d := set_mapWidgets d [] in
  let d := set_plotWidgets d [] in
  let d := set_gaugeWidgets d [] in
  let d := set_compassWidgets d [] in
  let d := set_gyroscopeWidgets d [] in
  let d := set_thermometerWidgets d [] in
  set_accelerometerWidgets d [].

(** The nine [clear()] calls on the visibility vectors. *)
Definition clearVisibility (d : Dashboard) : Dashboard :=
  let d := set_barVisibility d [] in
  let d := set_mapVisibility d [] in
  let d := set_plotVisibility d [] in
  let d := set_gaugeVisibility d [] in
  let d := set_groupVisibility d [] in
  let d := set_compassVisibility d [] in
  let d := set_gyroscopeVisibility d [] in
  let d := set_thermometerVisibility d [] in
  set_accelerometerVisibility d [].

(** [for (i = 0; i < n; ++i) vector.append(true);] *)
Fixpoint appendTrue (n : nat) (vector : list bool) : list bool :=
  match n with
  | O => vector
  | S k => appendTrue k (vector ++ [true])
  end.

(** [m_latestFrame.read(m_latestJsonFrame.jsonDocument.object())]: the
    answer of [read] and the state with the frame as [read] left it. *)
Definition readLatestFrame (d : Dashboard) : bool * Dashboard :=
  let (ok, frame) :=
    Frame_read (m_latestFrame d) (jsonDocument (m_latestJsonFrame d)) in
  (ok, set_latestFrame d frame).

Definition resetData (d : Dashboard) : Dashboard * list Signal :=
  (* Make latest frame invalid *)
  let d := set_latestJsonFrame d JFI_Empty in
  let d := snd (readLatestFrame d) in
  (* Clear widget data *)
  let d := clearWidgets d in
  (* Clear widget visibility data *)
  let d := clearVisibility d in
  (* Update UI *)
  (d, [updated; dataReset; titleChanged; widgetCountChanged;
       widgetVisibilityChanged]).

Definition updateData (d : Dashboard) : Dashboard * list Signal :=
  (* Save widget count *)
  let barC := barCount d in
  let mapC := mapCount d in
  let plotC := plotCount d in
  let groupC := groupCount d in
  let gaugeC := gaugeCount d in
  let compassC := compassCount d in
  let gyroscopeC := gyroscopeCount d in
  let thermometerC := thermometerCount d in
  let accelerometerC := accelerometerCount d in
  (* Save previous title *)
  let pTitle := title d in
  (* Clear widget data *)
  let d := clearWidgets d in
  (* Check if frame is valid *)
  let (ok, d) := readLatestFrame d in
  if negb ok then (d, []) else
  (* Update widget vectors *)
  let d := set_plotWidgets d (getPlotWidgets d) in
  let d := set_mapWidgets d (getWidgetGroups d "map") in
  let d := set_barWidgets d (getWidgetDatasets d "bar") in
  let d := set_gaugeWidgets d (getWidgetDatasets d "gauge") in
  let d := set_gyroscopeWidgets d (getWidgetGroups d "gyro") in
  let d := set_compassWidgets d (getWidgetDatasets d "compass") in
  let d := set_thermometerWidgets d (getWidgetDatasets d "thermometer") in
  let d := set_accelerometerWidgets d (getWidgetGroups d "accelerometer") in
  (* Check if we need to update title *)
  let signals := if negb (String.eqb pTitle (title d)) then [titleChanged] else [] in
  (* Check if we need to regenerate widgets *)
  let regenerateWidgets := false in
  let regenerateWidgets := regenerateWidgets || negb (barC =? barCount d) in
  let regenerateWidgets := regenerateWidgets || negb (mapC =? mapCount d) in
  let regenerateWidgets := regenerateWidgets || negb (plotC =? plotCount d) in
  let regenerateWidgets := regenerateWidgets || negb (gaugeC =? gaugeCount d) in
  let regenerateWidgets := regenerateWidgets || negb (groupC =? groupCount d) in
  let regenerateWidgets := regenerateWidgets || negb (compassC =? compassCount d) in
  let regenerateWidgets := regenerateWidgets || negb (gyroscopeC =? gyroscopeCount d) in
  let regenerateWidgets := regenerateWidgets || negb (thermometerC =? thermometerCount d) in
  let regenerateWidgets := regenerateWidgets || negb (accelerometerC =? accelerometerCount d) in
  (* Regenerate widget visiblity models *)
  if regenerateWidgets then
    let d := clearVisibility d in
    let d := set_barVisibility d (appendTrue (Z.to_nat (barCount d)) (m_barVisibility d)) in
    let d := set_mapVisibility d (appendTrue (Z.to_nat (mapCount d)) (m_mapVisibility d)) in
    let d := set_plotVisibility d (appendTrue (Z.to_nat (plotCount d)) (m_plotVisibility d)) in
    let d := set_gaugeVisibility d (appendTrue (Z.to_nat (gaugeCount d)) (m_gaugeVisibility d)) in
    let d := set_groupVisibility d (appendTrue (Z.to_nat (groupCount d)) (m_groupVisibility d)) in
    let d := set_compassVisibility d (appendTrue (Z.to_nat (compassCount d)) (m_compassVisibility d)) in
    let d := set_gyroscopeVisibility d (appendTrue (Z.to_nat (gyroscopeCount d)) (m_gyroscopeVisibility d)) in
    let d := set_thermometerVisibility d (appendTrue (Z.to_nat (thermometerCount d)) (m_thermometerVisibility d)) in
    let d := set_accelerometerVisibility d (appendTrue (Z.to_nat (accelerometerCount d)) (m_accelerometerVisibility d)) in
    (* Update UI *)
    (d, signals ++ [widgetCountChanged; widgetVisibilityChanged] ++ [updated])
  else
    (* Update UI *)
    (d, signals ++ [updated]).

(** Only the most recent JSON document is kept. *)
Definition selectLatestJSON (d : Dashboard) (frameInfo : JFI_Object) : Dashboard :=
  let frameCount := frameNumber frameInfo in
  let currFrameCount := frameNumber (m_latestJsonFrame d) in
  if currFrameCount <? frameCount then set_latestJsonFrame d frameInfo else d.

(** The ingestion of the specification: the admission of a frame followed
    by the update pass.  In the source the two are separate slots;
    [selectLatestJSON] is connected to the generator and [updateData] to the
    timer. *)
Definition ingest (d : Dashboard) (frameInfo : JFI_Object) : Dashboard * list Signal :=
  updateData (selectLatestJSON d frameInfo).

End Dashboard.

Arguments JFI_Object : clear implicits.
Arguments Dashboard : clear implicits.

(* ------------------------------------------------------------------ *)
(** ** Auxiliary definitions for the statements *)

Section Views.

Context {QJsonObject : Type}.
Implicit Type d : Dashboard QJsonObject.

(** The sum of the nine counts, without reduction to [int]. *)
Definition countSum d : Z :=
  groupCount d + plotCount d + barCount d + gaugeCount d + thermometerCount d
  + compassCount d + gyroscopeCount d + accelerometerCount d + mapCount d.

(** The state after the block "Update widget vectors" of [updateData],
    when [read] has left the frame [fr]. *)
Definition classified d (fr : Frame) : Dashboard QJsonObject :=
  let d0 := set_latestFrame d fr in
  mkDashboard fr (m_latestJsonFrame d)
    (getWidgetDatasets d0 "bar") (getWidgetGroups d0 "map") (getPlotWidgets d0)
    (getWidgetDatasets d0 "gauge") (getWidgetDatasets d0 "compass")
    (getWidgetGroups d0 "gyro") (getWidgetDatasets d0 "thermometer")
    (getWidgetGroups d0 "accelerometer")
    (m_barVisibility d) (m_mapVisibility d) (m_plotVisibility d)
    (m_gaugeVisibility d) (m_groupVisibility d) (m_compassVisibility d)
    (m_gyroscopeVisibility d) (m_thermometerVisibility d)
    (m_accelerometerVisibility d).

(** The flag [regenerateWidgets] of [updateData], for the state [d] at
    entry and the state [d'] after classification. *)
Definition countsDiffer d d' : bool :=
  negb (barCount d =? barCount d') || negb (mapCount d =? mapCount d')
  || negb (plotCount d =? plotCount d') || negb (gaugeCount d =? gaugeCount d')
  || negb (groupCount d =? groupCount d')
  || negb (compassCount d =? compassCount d')
  || negb (gyroscopeCount d =? gyroscopeCount d')
  || negb (thermometerCount d =? thermometerCount d')
  || negb (accelerometerCount d =? accelerometerCount d').

(** The state after the block "Regenerate widget visiblity models". *)
Definition allVisible d : Dashboard QJsonObject :=
  mkDashboard (m_latestFrame d) (m_latestJsonFrame d)
    (m_barWidgets d) (m_mapWidgets d) (m_plotWidgets d) (m_gaugeWidgets d)
    (m_compassWidgets d) (m_gyroscopeWidgets d) (m_thermometerWidgets d)
    (m_accelerometerWidgets d)
    (appendTrue (Z.to_nat (barCount d)) [])
    (appendTrue (Z.to_nat (mapCount d)) [])
    (appendTrue (Z.to_nat (plotCount d)) [])
    (appendTrue (Z.to_nat (gaugeCount d)) [])
    (appendTrue (Z.to_nat (groupCount d)) [])
    (appendTrue (Z.to_nat (compassCount d)) [])
    (appendTrue (Z.to_nat (gyroscopeCount d)) [])
    (appendTrue (Z.to_nat (thermometerCount d)) [])
    (appendTrue (Z.to_nat (accelerometerCount d)) []).

(** The number of widgets of the kinds that come before [k] in the order
    of the walk: the global index of the first widget of kind [k]. *)
Definition kindOffset (k : WidgetType.t) d : Z :=
  match k with
  | WidgetType.Unknown => countSum d
  | WidgetType.Group => 0
  | WidgetType.Plot => groupCount d
  | WidgetType.Bar => groupCount d + plotCount d
  | WidgetType.Gauge => groupCount d + plotCount d + barCount d
  | WidgetType.Thermometer =>
      groupCount d + plotCount d + barCount d + gaugeCount d
  | WidgetType.Compass =>
      groupCount d + plotCount d + barCount d + gaugeCount d
      + thermometerCount d
  | WidgetType.Gyroscope =>
      groupCount d + plotCount d + barCount d + gaugeCount d
      + thermometerCount d + compassCount d
  | WidgetType.Accelerometer =>
      groupCount d + plotCount d + barCount d + gaugeCount d
      + thermometerCount d + compassCount d + gyroscopeCount d
  | WidgetType.Map =>
      groupCount d + plotCount d + barCount d + gaugeCount d
      + thermometerCount d + compassCount d + gyroscopeCount d
      + accelerometerCount d
  end.

(** Every visibility vector is as long as the count of its kind. *)
Definition aligned d : Prop :=
  forall k, count (visibility k d) = widgetCount k d.

(** The accessor and the slot that the class declares for each kind. *)
Definition visibilitySlots :
  list (WidgetType.t
        * (Dashboard QJsonObject -> Z -> Access bool)
        * (Dashboard QJsonObject -> Z -> bool
           -> Access (Dashboard QJsonObject * list Signal))) :=
  [ (WidgetType.Bar, barVisible, setBarVisible);
    (WidgetType.Map, mapVisible, setMapVisible);
    (WidgetType.Plot, plotVisible, setPlotVisible);
    (WidgetType.Group, groupVisible, setGroupVisible);
    (WidgetType.Gauge, gaugeVisible, setGaugeVisible);
    (WidgetType.Compass, compassVisible, setCompassVisible);
    (WidgetType.Gyroscope, gyroscopeVisible, setGyroscopeVisible);
    (WidgetType.Thermometer, thermometerVisible, setThermometerVisible);
    (WidgetType.Accelerometer, accelerometerVisible, setAccelerometerVisible) ].

(** Reading the object that was just read gives the same answer and the
    same frame again. *)
Definition rereadStable (read : Frame -> QJsonObject -> bool * Frame) : Prop :=
  forall (f : Frame) (o : QJsonObject), read (snd (read f o)) o = read f o.

End Views.

(* ------------------------------------------------------------------ *)
(** ** A concrete reader and concrete states *)

Module Sample.

(** Modelled from the spec: [JSON::Frame::read] is not part of
    Dashboard.cpp.  Sections 3 and 4.5 of the specification: a frame is
    valid only if successfully parsed and is otherwise rejected wholesale;
    an accepted frame replaces the stored one wholesale; when parsing fails
    the stored Frame is left untouched.  A JSON object is represented by
    what parsing makes of it: [Some f] for an object that describes the
    frame [f], [None] for an object that fails to parse.  The object of
    [JFI_Empty()] is taken to be one that fails to parse. *)
Definition read (stored : Frame) (object : option Frame) : bool * Frame :=
  match object with
  | Some f => (true, f)
  | None => (false, stored)
  end.

Definition empty : JFI_Object (option Frame) := mkJFI 0 None.

(** The state of a dashboard that holds the frame [f] and the document
    [js], with no cached widget and no visibility flag. *)
Definition blank (f : Frame) (js : JFI_Object (option Frame))
  : Dashboard (option Frame) :=
  mkDashboard f js [] [] [] [] [] [] [] [] [] [] [] [] [] [] [] [] [].

(** The state at construction. *)
Definition initial : Dashboard (option Frame) := blank (mkFrame "" []) empty.

(** Scenario 7 of the specification: group A is a map without datasets,
    group B holds three plottable datasets; no other handle is set. *)
Definition scenarioFrame (tF tA tB t1 t2 t3 : string) : Frame :=
  mkFrame tF
    [ mkGroup tA "map" [];
      mkGroup tB "" [ mkDataset t1 "" true;
                      mkDataset t2 "" true;
                      mkDataset t3 "" true ] ].

Definition demoFrame : Frame :=
  scenarioFrame "demo" "position" "signals" "x" "y" "z".

(** A frame-info record that carries [demoFrame] as frame number 1. *)
Definition demoInfo : JFI_Object (option Frame) := mkJFI 1 (Some demoFrame).

(** A frame-info record whose document fails to parse. *)
Definition brokenInfo : JFI_Object (option Frame) := mkJFI 2 None.

(** The dashboard after the first update with [demoFrame]. *)
Definition demo : Dashboard (option Frame) :=
  fst (ingest read initial demoInfo).

(** The initial dashboard once [demoInfo] is admitted and before the timer
    runs the update. *)
Definition pending : Dashboard (option Frame) :=
  selectLatestJSON initial demoInfo.

(** The dashboard that shows [demoFrame] once [brokenInfo] is admitted. *)
Definition broken : Dashboard (option Frame) :=
  selectLatestJSON demo brokenInfo.

(** The dashboard that shows [demoFrame] after [setPlotVisible(1, false)];
    the document held is still [demoInfo]. *)
Definition hidden : Dashboard (option Frame) :=
  set_plotVisibility demo [true; false; true].

(** A second frame-info record with the frame number of [demoInfo] and
    another document. *)
Definition rivalInfo : JFI_Object (option Frame) :=
  mkJFI 1 (Some (scenarioFrame "rival" "a" "b" "c" "d" "e")).

(** Modelled from the spec: [JSON::Frame::read] is not part of
    Dashboard.cpp.  Section 4.5 of the specification says of reset() that
    it clears Frame to an empty/invalid sentinel, and [resetData] does so
    ("Make latest frame invalid") by reading the object of [JFI_Empty()],
    an object that describes no frame.  This reader answers [false] for an
    object that describes no frame and leaves the empty frame; an object
    that describes a frame replaces the stored frame as in [read]. *)
Definition clearingRead (stored : Frame) (object : option Frame)
  : bool * Frame :=
  match object with
  | Some f => (true, f)
  | None => (false, mkFrame "" [])
  end.

(** A frame whose handles are written in capitals: the group is tagged
    "MAP" and its dataset "BAR". *)
Definition capitalsFrame : Frame :=
  mkFrame "caps" [ mkGroup "position" "MAP" [ mkDataset "level" "BAR" false ] ].

End Sample.

(* ------------------------------------------------------------------ *)
(** ** Facts about [int] arithmetic and vectors *)

Lemma int_wrap_small (z : Z) : in_int z -> int_wrap z = z.
Proof.
  unfold in_int, INT_MIN, INT_MAX, int_wrap. intros Hz.
  rewrite Z.mod_small; lia.
Qed.

Lemma int_wrap_range (z : Z) : in_int (int_wrap z).
Proof.
  unfold in_int, INT_MIN, INT_MAX, int_wrap.
  pose proof (Z.mod_pos_bound (z + 2 ^ 31) (2 ^ 32) ltac:(lia)). lia.
Qed.

Lemma int_wrap_le (z : Z) : 0 <= z -> int_wrap z <= z.
Proof.
  unfold int_wrap. intros Hz.
  pose proof (Z.mod_le (z + 2 ^ 31) (2 ^ 32) ltac:(lia) ltac:(lia)). lia.
Qed.

Lemma int_add_wrap_l (a b : Z) : int_add (int_wrap a) b = int_wrap (a + b).
Proof.
  unfold int_add, int_wrap.
  replace ((a + 2 ^ 31) mod 2 ^ 32 - 2 ^ 31 + b + 2 ^ 31)
    with ((a + 2 ^ 31) mod 2 ^ 32 + b) by lia.
  rewrite Zplus_mod_idemp_l. do 2 f_equal. lia.
Qed.

Lemma int_sub_small (a b : Z) : 0 <= b <= a -> a <= INT_MAX -> int_sub a b = a - b.
Proof.
  intros Hb Ha. unfold int_sub. apply int_wrap_small.
  unfold in_int, INT_MIN, INT_MAX in *. lia.
Qed.

Lemma count_nonneg {A : Type} (v : list A) : 0 <= count v.
Proof. unfold count. lia. Qed.

Lemma count_repeat {A : Type} (a : A) (n : Z) : 0 <= n -> count (repeat a (Z.to_nat n)) = n.
Proof. intros Hn. unfold count. rewrite repeat_length. lia. Qed.

Lemma appendTrue_repeat (n : nat) (v : list bool) :
  appendTrue n v = v ++ repeat true n.
Proof.
  revert v. induction n as [|n IH]; intros v; simpl.
  - now rewrite app_nil_r.
  - rewrite IH, <- app_assoc. reflexivity.
Qed.

(** Unfolding of the assignments and of the member accesses, by value:
    on a state given by its members every intermediate state of a slot is
    again given by its members. *)
Ltac unfold_state :=
  cbv beta iota zeta delta
    [updateData resetData ingest selectLatestJSON readLatestFrame
     clearWidgets clearVisibility classified allVisible countsDiffer title
     widgetCount visibility
     set_latestFrame set_latestJsonFrame set_barWidgets set_mapWidgets
     set_plotWidgets set_gaugeWidgets set_compassWidgets set_gyroscopeWidgets
     set_thermometerWidgets set_accelerometerWidgets set_barVisibility
     set_mapVisibility set_plotVisibility set_gaugeVisibility
     set_groupVisibility set_compassVisibility set_gyroscopeVisibility
     set_thermometerVisibility set_accelerometerVisibility
     m_latestFrame m_latestJsonFrame m_barWidgets m_mapWidgets m_plotWidgets
     m_gaugeWidgets m_compassWidgets m_gyroscopeWidgets m_thermometerWidgets
     m_accelerometerWidgets m_barVisibility m_mapVisibility m_plotVisibility
     m_gaugeVisibility m_groupVisibility m_compassVisibility
     m_gyroscopeVisibility m_thermometerVisibility m_accelerometerVisibility
     barCount mapCount plotCount gaugeCount groupCount compassCount
     gyroscopeCount thermometerCount accelerometerCount
     getPlotWidgets getWidgetGroups getWidgetDatasets fst snd] in *.

Ltac destruct_state d :=
  destruct d as [f0 js bw mw pw gw cw yw tw aw bv mv pv gv rv cv yv tv av].

(* ------------------------------------------------------------------ *)
(** ** The global-index walk *)

Section Resolver.

Context {QJsonObject : Type}.
Implicit Type d : Dashboard QJsonObject.

Lemma totalWidgetCount_wrap d : totalWidgetCount d = int_wrap (countSum d).
Proof.
  unfold totalWidgetCount, countSum.
  unfold int_add at 8. rewrite !int_add_wrap_l. f_equal. lia.
Qed.

Lemma countSum_nonneg d : 0 <= countSum d.
Proof.
  unfold countSum, groupCount, plotCount, barCount, gaugeCount,
    thermometerCount, compassCount, gyroscopeCount, accelerometerCount,
    mapCount, Frame_groupCount, count. lia.
Qed.

Lemma totalWidgetCount_le_sum d : totalWidgetCount d <= countSum d.
Proof.
  rewrite totalWidgetCount_wrap. apply int_wrap_le, countSum_nonneg.
Qed.

Lemma totalWidgetCount_in_int d : in_int (totalWidgetCount d).
Proof. rewrite totalWidgetCount_wrap. apply int_wrap_range. Qed.

Lemma widgetCount_nonneg (k : WidgetType.t) d : 0 <= widgetCount k d.
Proof.
  destruct k; simpl; try apply count_nonneg. lia.
Qed.

(** The nine counts become variables, each known to be non-negative. *)
Ltac name_counts d :=
  pose proof (count_nonneg (frame_groups (m_latestFrame d)));
  pose proof (count_nonneg (m_plotWidgets d));
  pose proof (count_nonneg (m_barWidgets d));
  pose proof (count_nonneg (m_gaugeWidgets d));
  pose proof (count_nonneg (m_thermometerWidgets d));
  pose proof (count_nonneg (m_compassWidgets d));
  pose proof (count_nonneg (m_gyroscopeWidgets d));
  pose proof (count_nonneg (m_accelerometerWidgets d));
  pose proof (count_nonneg (m_mapWidgets d));
  unfold groupCount, plotCount, barCount, gaugeCount, thermometerCount,
    compassCount, gyroscopeCount, accelerometerCount, mapCount,
    Frame_groupCount in *;
  generalize dependent (count (frame_groups (m_latestFrame d)));
  generalize dependent (count (m_plotWidgets d));
  generalize dependent (count (m_barWidgets d));
  generalize dependent (count (m_gaugeWidgets d));
  generalize dependent (count (m_thermometerWidgets d));
  generalize dependent (count (m_compassWidgets d));
  generalize dependent (count (m_gyroscopeWidgets d));
  generalize dependent (count (m_accelerometerWidgets d));
  generalize dependent (count (m_mapWidgets d));
  intros.

(** One comparison of the walk: either the index falls in the current
    kind, or the count is subtracted without leaving the range of [int]. *)
Ltac walk_step :=
  match goal with
  | |- context [?i <? ?c] =>
      destruct (Z.ltb_spec i c);
      [ | try rewrite (int_sub_small i c) in * by lia ]
  end.

Lemma walk_in_range d (g : Z) :
  0 <= g <= INT_MAX -> g < countSum d ->
  widgetType d g <> WidgetType.Unknown /\
  0 <= relativeIndex d g < widgetCount (widgetType d g) d.
Proof.
  intros Hg Hsum. unfold widgetType, relativeIndex, widgetCount, countSum in *.
  name_counts d.
  destruct (Z.ltb_spec g 0); [lia|].
  repeat (walk_step; [split; [discriminate | lia] | ]).
  lia.
Qed.

(** Past the last widget both walks fall through all nine kinds. *)
Lemma walk_above_sum d (g : Z) :
  countSum d <= g <= INT_MAX ->
  widgetType d g = WidgetType.Unknown /\ relativeIndex d g = -1.
Proof.
  intros Hg. unfold widgetType, relativeIndex, countSum in *.
  name_counts d.
  destruct (Z.ltb_spec g 0); [lia|].
  repeat (walk_step; [lia | ]).
  split; reflexivity.
Qed.

(** A negative index is below the first count, so [relativeIndex] hands it
    back, while [widgetType] has a test of its own for it. *)
Lemma walk_negative d (g : Z) :
  g < 0 -> widgetType d g = WidgetType.Unknown /\ relativeIndex d g = g.
Proof.
  intros Hg. unfold widgetType, relativeIndex.
  pose proof (count_nonneg (frame_groups (m_latestFrame d))) as Hc.
  fold (Frame_groupCount (m_latestFrame d)) in Hc. fold (groupCount d) in Hc.
  destruct (Z.ltb_spec g 0); [|lia].
  destruct (Z.ltb_spec g (groupCount d)); [|lia].
  split; reflexivity.
Qed.

(** C1. For every global index in [0, totalWidgetCount()), the walk of
    [widgetType] answers a kind other than [Unknown], and the walk of
    [relativeIndex] answers a local index that is at least 0 and below the
    count of that kind. *)
Theorem resolve_in_range d (globalIndex : Z) :
  0 <= globalIndex < totalWidgetCount d ->
  widgetType d globalIndex <> WidgetType.Unknown /\
  0 <= relativeIndex d globalIndex
     < widgetCount (widgetType d globalIndex) d.
Proof.
  intros [Hlo Hhi].
  pose proof (totalWidgetCount_le_sum d) as Hsum.
  pose proof (totalWidgetCount_in_int d) as [_ Hmax].
  apply walk_in_range; lia.
Qed.

(** C2. At the negative global index -2 the two walks disagree on the
    sentinel: [widgetType] answers [Unknown], but [relativeIndex] answers
    -2, not -1.  This holds in every state of the dashboard. *)
Theorem relativeIndex_negative_not_sentinel d :
  widgetType d (-2) = WidgetType.Unknown /\
  relativeIndex d (-2) = -2 /\
  relativeIndex d (-2) <> -1.
Proof.
  destruct (walk_negative d (-2)) as [Ht Hr]; [lia|].
  rewrite Ht, Hr. repeat split. lia.
Qed.

End Resolver.

Lemma resolve_in_range_witness :
  widgetType Sample.demo 3 <> WidgetType.Unknown /\
  0 <= relativeIndex Sample.demo 3
     < widgetCount (widgetType Sample.demo 3) Sample.demo.
Proof.
  apply (resolve_in_range Sample.demo 3).
  vm_compute. split; [discriminate | reflexivity].
Defined.

(* ------------------------------------------------------------------ *)
(** ** The visibility vectors *)

Lemma getVisibility_above (vector : list bool) (index : Z) :
  count vector <= index -> getVisibility vector index = Done false.
Proof.
  intros H. unfold getVisibility.
  destruct (Z.ltb_spec index (count vector)); [lia | reflexivity].
Qed.

Lemma setVisibility_above (vector : list bool) (index : Z) (visible : bool) :
  count vector <= index -> setVisibility vector index visible = Done (vector, []).
Proof.
  intros H. unfold setVisibility.
  destruct (Z.ltb_spec index (count vector)); [lia | reflexivity].
Qed.

Lemma QVector_at_negative {A : Type} (v : list A) (i : Z) :
  i < 0 -> QVector_at v i = OutOfRange.
Proof.
  intros H. unfold QVector_at. destruct (Z.ltb_spec i 0); [reflexivity | lia].
Qed.

Lemma QVector_set_negative {A : Type} (v : list A) (i : Z) (a : A) :
  i < 0 -> QVector_set v i a = OutOfRange.
Proof.
  intros H. unfold QVector_set. destruct (Z.ltb_spec i 0); [reflexivity | lia].
Qed.

(** A negative index passes the only test of [getVisibility] and of
    [setVisibility], and the vector is indexed with it. *)
Lemma visibility_negative (vector : list bool) (index : Z) (visible : bool) :
  index < 0 ->
  getVisibility vector index = OutOfRange /\
  setVisibility vector index visible = OutOfRange.
Proof.
  intros H. pose proof (count_nonneg vector) as Hc.
  unfold getVisibility, setVisibility.
  destruct (Z.ltb_spec index (count vector)); [|lia].
  rewrite QVector_at_negative, QVector_set_negative by assumption.
  split; reflexivity.
Qed.

(** C6. With the local index -1, whatever the visibility vector holds,
    [getVisibility] does not answer [false] and [setVisibility] is not a
    no-op: both index the vector at -1, outside its bounds.  The nine
    accessors and the nine slots of the class pass their vector and index
    on to these two functions. *)
Theorem visibility_negative_index_out_of_range
  (vector : list bool) (visible : bool) :
  getVisibility vector (-1) = OutOfRange /\
  getVisibility vector (-1) <> Done false /\
  setVisibility vector (-1) visible = OutOfRange /\
  setVisibility vector (-1) visible <> Done (vector, []).
Proof.
  destruct (visibility_negative vector (-1) visible) as [Hg Hs]; [lia|].
  rewrite Hg, Hs. repeat split; discriminate.
Qed.

(* ------------------------------------------------------------------ *)
(** ** The frame slots *)

Section Slots.

Context {QJsonObject : Type}.
Variable Frame_read : Frame -> QJsonObject -> bool * Frame.
Variable JFI_Empty : JFI_Object QJsonObject.
Implicit Type d : Dashboard QJsonObject.

(** [updateData] on a document that [read] accepts. *)
Lemma updateData_valid d (fr : Frame) :
  Frame_read (m_latestFrame d) (jsonDocument (m_latestJsonFrame d)) = (true, fr) ->
  updateData Frame_read d =
  let d1 := classified d fr in
  let signals :=
    if negb (String.eqb (title d) (title d1)) then [titleChanged] else [] in
  if countsDiffer d d1
  then (allVisible d1,
        signals ++ [widgetCountChanged; widgetVisibilityChanged] ++ [updated])
  else (d1, signals ++ [updated]).
Proof.
  intros Hread. destruct_state d. unfold_state. rewrite Hread. reflexivity.
Qed.

(** [updateData] on a document that [read] refuses. *)
Lemma updateData_invalid d (fr : Frame) :
  Frame_read (m_latestFrame d) (jsonDocument (m_latestJsonFrame d)) = (false, fr) ->
  updateData Frame_read d = (set_latestFrame (clearWidgets d) fr, []).
Proof.
  intros Hread. destruct_state d. unfold_state. rewrite Hread. reflexivity.
Qed.

Lemma countsDiffer_false d d' :
  countsDiffer d d' = false <-> forall k, widgetCount k d' = widgetCount k d.
Proof.
  unfold countsDiffer. rewrite !orb_false_iff, !negb_false_iff, !Z.eqb_eq.
  split.
  - intros [[[[[[[[Hb Hm] Hp] Hg] Hr] Hc] Hy] Ht] Ha] k.
    destruct k; simpl; congruence.
  - intros H. repeat split.
    + exact (eq_sym (H WidgetType.Bar)).
    + exact (eq_sym (H WidgetType.Map)).
    + exact (eq_sym (H WidgetType.Plot)).
    + exact (eq_sym (H WidgetType.Gauge)).
    + exact (eq_sym (H WidgetType.Group)).
    + exact (eq_sym (H WidgetType.Compass)).
    + exact (eq_sym (H WidgetType.Gyroscope)).
    + exact (eq_sym (H WidgetType.Thermometer)).
    + exact (eq_sym (H WidgetType.Accelerometer)).
Qed.

Lemma allVisible_widgetCount (k : WidgetType.t) d :
  widgetCount k (allVisible d) = widgetCount k d.
Proof. destruct k; reflexivity. Qed.

Lemma allVisible_visibility (k : WidgetType.t) d :
  visibility k (allVisible d) = repeat true (Z.to_nat (widgetCount k d)).
Proof.
  destruct k; unfold allVisible, visibility; cbn [m_groupVisibility
    m_plotVisibility m_barVisibility m_gaugeVisibility m_thermometerVisibility
    m_compassVisibility m_gyroscopeVisibility m_accelerometerVisibility
    m_mapVisibility]; rewrite ?appendTrue_repeat; reflexivity.
Qed.

Lemma classified_visibility (k : WidgetType.t) d (fr : Frame) :
  visibility k (classified d fr) = visibility k d.
Proof. destruct k; reflexivity. Qed.

(** C3. An update with a document that parses classifies the frame that
    was read, and the counts at exit are the classified counts.  If the
    classified count of some kind differs from that kind's count at entry,
    the visibility vector of every kind, also of a kind whose own count did
    not change, is all-true and as long as that kind's new count; if no
    classified count differs, every visibility vector is what it was,
    hidden entries included. *)
Theorem updateData_visibility d (fr : Frame) :
  Frame_read (m_latestFrame d) (jsonDocument (m_latestJsonFrame d)) = (true, fr) ->
  let classifiedCount k := widgetCount k (classified d fr) in
  let d' := fst (updateData Frame_read d) in
  (forall k, widgetCount k d' = classifiedCount k) /\
  ((exists k, classifiedCount k <> widgetCount k d) ->
   forall k, visibility k d' = repeat true (Z.to_nat (classifiedCount k)) /\
             count (visibility k d') = classifiedCount k) /\
  ((forall k, classifiedCount k = widgetCount k d) ->
   forall k, visibility k d' = visibility k d).
Proof.
  intros Hread. cbv zeta.
  rewrite (updateData_valid d fr Hread). cbv zeta.
  destruct (countsDiffer d (classified d fr)) eqn:Hflag; cbn [fst].
  - split; [intros k; apply allVisible_widgetCount|]. split.
    + intros _ k. rewrite allVisible_visibility.
      split; [reflexivity|].
      apply count_repeat, widgetCount_nonneg.
    + intros Hsame. exfalso.
      assert (countsDiffer d (classified d fr) = false) as Hno
        by (apply countsDiffer_false; exact Hsame).
      congruence.
  - split; [reflexivity|]. split.
    + intros [k Hk]. exfalso. apply Hk.
      now apply countsDiffer_false.
    + intros _ k. apply classified_visibility.
Qed.

(** C4 (as amended). An update with a document that fails to parse, for
    every reader: the eight cached collections are cleared, the document
    held and the nine visibility vectors are what they were, no signal is
    emitted, and the stored frame is the one that [read] has left on the
    failed parse; [updateData] neither restores nor changes it. *)
Theorem updateData_unparseable d :
  fst (Frame_read (m_latestFrame d) (jsonDocument (m_latestJsonFrame d))) = false ->
  let d' := fst (updateData Frame_read d) in
  (m_barWidgets d' = [] /\ m_mapWidgets d' = [] /\ m_plotWidgets d' = [] /\
   m_gaugeWidgets d' = [] /\ m_compassWidgets d' = [] /\
   m_gyroscopeWidgets d' = [] /\ m_thermometerWidgets d' = [] /\
   m_accelerometerWidgets d' = []) /\
  m_latestFrame d'
    = snd (Frame_read (m_latestFrame d) (jsonDocument (m_latestJsonFrame d))) /\
  m_latestJsonFrame d' = m_latestJsonFrame d /\
  (forall k, visibility k d' = visibility k d) /\
  snd (updateData Frame_read d) = [].
Proof.
  intros Hfail.
  destruct (Frame_read _ _) as [ok fr] eqn:Hread. simpl in Hfail. subst ok.
  rewrite (updateData_invalid d _ Hread). cbn [fst snd].
  repeat split.
Qed.

(** C10. After an update that returns early on a document that fails to
    parse: the eight cached collections are empty; the count of the Group
    kind is the size of the group vector of the stored frame, which the
    clearing step does not touch; and, that size being an [int], the total
    widget count is the group count. *)
Theorem updateData_early_return_counts d :
  fst (Frame_read (m_latestFrame d) (jsonDocument (m_latestJsonFrame d))) = false ->
  let d' := fst (updateData Frame_read d) in
  groupCount d' <= INT_MAX ->
  (plotCount d' = 0 /\ barCount d' = 0 /\ gaugeCount d' = 0 /\
   thermometerCount d' = 0 /\ compassCount d' = 0 /\ gyroscopeCount d' = 0 /\
   accelerometerCount d' = 0 /\ mapCount d' = 0) /\
  groupCount (clearWidgets d) = groupCount d /\
  groupCount d' = count (frame_groups (m_latestFrame d')) /\
  totalWidgetCount d' = groupCount d'.
Proof.
  intros Hfail.
  destruct (Frame_read _ _) as [ok fr] eqn:Hread. simpl in Hfail. subst ok.
  rewrite (updateData_invalid d fr Hread). cbn [fst]. intros Hmax.
  repeat split.
  rewrite totalWidgetCount_wrap.
  replace (countSum (set_latestFrame (clearWidgets d) fr))
    with (groupCount (set_latestFrame (clearWidgets d) fr))
    by (unfold countSum; cbn; lia).
  pose proof (widgetCount_nonneg WidgetType.Group
                (set_latestFrame (clearWidgets d) fr)) as Hnn.
  apply int_wrap_small. unfold in_int, INT_MIN, INT_MAX in *.
  cbn [widgetCount] in Hnn. lia.
Qed.

(** C5 (as amended). Every call of [resetData] emits the five signals in
    the order [updated], [dataReset], [titleChanged], [widgetCountChanged],
    [widgetVisibilityChanged]: [updated] is the first of the five. *)
Theorem resetData_signals d :
  snd (resetData Frame_read JFI_Empty d) =
  [updated; dataReset; titleChanged; widgetCountChanged;
   widgetVisibilityChanged].
Proof. reflexivity. Qed.

(** The admission gate does not accept the number that it holds. *)
Lemma selectLatestJSON_gate d (frameInfo : JFI_Object QJsonObject) :
  (frameNumber (m_latestJsonFrame (selectLatestJSON d frameInfo))
     <? frameNumber frameInfo) = false.
Proof.
  unfold selectLatestJSON.
  destruct (Z.ltb_spec (frameNumber (m_latestJsonFrame d)) (frameNumber frameInfo)).
  - apply Z.ltb_irrefl.
  - apply Z.ltb_ge. assumption.
Qed.

Lemma updateData_json d :
  m_latestJsonFrame (fst (updateData Frame_read d)) = m_latestJsonFrame d.
Proof.
  destruct (Frame_read (m_latestFrame d) (jsonDocument (m_latestJsonFrame d)))
    as [[|] fr] eqn:Hread.
  - rewrite (updateData_valid d fr Hread). cbv zeta.
    destruct (countsDiffer d (classified d fr)); reflexivity.
  - rewrite (updateData_invalid d fr Hread). reflexivity.
Qed.

(** A state whose caches are those of its frame, for a document that is
    read to that very frame: the update changes nothing. *)
Lemma updateData_settled d :
  Frame_read (m_latestFrame d) (jsonDocument (m_latestJsonFrame d))
    = (true, m_latestFrame d) ->
  classified d (m_latestFrame d) = d ->
  updateData Frame_read d = (d, [updated]).
Proof.
  intros Hread Hcl. rewrite (updateData_valid d _ Hread). cbv zeta.
  rewrite Hcl.
  replace (countsDiffer d d) with false.
  - unfold title. rewrite String.eqb_refl. reflexivity.
  - symmetry. apply countsDiffer_false. reflexivity.
Qed.

(** The members that a second update reads, in the three states that an
    update can leave. *)
Lemma classified_frame d (fr : Frame) : m_latestFrame (classified d fr) = fr.
Proof. reflexivity. Qed.

Lemma classified_json d (fr : Frame) :
  m_latestJsonFrame (classified d fr) = m_latestJsonFrame d.
Proof. reflexivity. Qed.

Lemma allVisible_frame d (fr : Frame) :
  m_latestFrame (allVisible (classified d fr)) = fr.
Proof. reflexivity. Qed.

Lemma allVisible_json d (fr : Frame) :
  m_latestJsonFrame (allVisible (classified d fr)) = m_latestJsonFrame d.
Proof. reflexivity. Qed.

Lemma refused_frame d (fr : Frame) :
  m_latestFrame (set_latestFrame (clearWidgets d) fr) = fr.
Proof. reflexivity. Qed.

Lemma refused_json d (fr : Frame) :
  m_latestJsonFrame (set_latestFrame (clearWidgets d) fr) = m_latestJsonFrame d.
Proof. reflexivity. Qed.

(** Classifying or clearing a second time gives the same state. *)
Lemma classified_again d (fr : Frame) :
  classified (classified d fr) fr = classified d fr.
Proof. reflexivity. Qed.

Lemma classified_allVisible d (fr : Frame) :
  classified (allVisible (classified d fr)) fr = allVisible (classified d fr).
Proof. reflexivity. Qed.

Lemma refused_again d (fr : Frame) :
  set_latestFrame (clearWidgets (set_latestFrame (clearWidgets d) fr)) fr
  = set_latestFrame (clearWidgets d) fr.
Proof. reflexivity. Qed.

Lemma updateData_after_regenerate d (fr : Frame) :
  Frame_read fr (jsonDocument (m_latestJsonFrame d)) = (true, fr) ->
  updateData Frame_read (allVisible (classified d fr))
  = (allVisible (classified d fr), [updated]).
Proof.
  intros Hre. apply updateData_settled.
  - rewrite allVisible_frame, allVisible_json. exact Hre.
  - rewrite allVisible_frame. apply classified_allVisible.
Qed.

Lemma updateData_after_classify d (fr : Frame) :
  Frame_read fr (jsonDocument (m_latestJsonFrame d)) = (true, fr) ->
  updateData Frame_read (classified d fr) = (classified d fr, [updated]).
Proof.
  intros Hre. apply updateData_settled.
  - rewrite classified_frame, classified_json. exact Hre.
  - rewrite classified_frame. apply classified_again.
Qed.

Lemma updateData_after_refusal d (fr : Frame) :
  Frame_read fr (jsonDocument (m_latestJsonFrame d)) = (false, fr) ->
  updateData Frame_read (set_latestFrame (clearWidgets d) fr)
  = (set_latestFrame (clearWidgets d) fr, []).
Proof.
  intros Hre. rewrite (updateData_invalid _ fr).
  - rewrite refused_again. reflexivity.
  - rewrite refused_frame, refused_json. exact Hre.
Qed.

Lemma updateData_twice d :
  rereadStable Frame_read ->
  let d1 := fst (updateData Frame_read d) in
  updateData Frame_read d1 =
  (d1, if fst (Frame_read (m_latestFrame d1) (jsonDocument (m_latestJsonFrame d1)))
       then [updated] else []).
Proof.
  intros Hstable.
  pose proof (Hstable (m_latestFrame d) (jsonDocument (m_latestJsonFrame d)))
    as Hre.
  destruct (Frame_read (m_latestFrame d) (jsonDocument (m_latestJsonFrame d)))
    as [ok fr] eqn:Hread.
  cbn [snd] in Hre. destruct ok.
  - rewrite (updateData_valid d fr Hread). cbv zeta.
    destruct (countsDiffer d (classified d fr)); cbn [fst].
    + rewrite allVisible_frame, allVisible_json, Hre. cbn [fst].
      apply updateData_after_regenerate. exact Hre.
    + rewrite classified_frame, classified_json, Hre. cbn [fst].
      apply updateData_after_classify. exact Hre.
  - rewrite (updateData_invalid d fr Hread). cbn [fst].
    rewrite refused_frame, refused_json, Hre. cbn [fst].
    apply updateData_after_refusal. exact Hre.
Qed.

(** C7 (as amended). When the ingestion is run a second time with a
    record that carries the same frame number as the first, whatever its
    document, the admission gate rejects the record and leaves the state as
    it is; the update pass, which does not look at frame numbers, runs
    again on the document held: for a reader that reads the same document
    to the same frame, the state is unchanged, and the only signal is
    [updated], emitted when the document held parses. *)
Theorem ingest_same_sequence d (frameInfo again : JFI_Object QJsonObject) :
  rereadStable Frame_read ->
  frameNumber again = frameNumber frameInfo ->
  let d1 := fst (ingest Frame_read d frameInfo) in
  selectLatestJSON d1 again = d1 /\
  ingest Frame_read d1 again =
  (d1, if fst (Frame_read (m_latestFrame d1) (jsonDocument (m_latestJsonFrame d1)))
       then [updated] else []).
Proof.
  intros Hstable Hnumber d1.
  assert (selectLatestJSON d1 again = d1) as Hgate.
  { unfold selectLatestJSON at 1. subst d1. unfold ingest.
    rewrite updateData_json, Hnumber, selectLatestJSON_gate. reflexivity. }
  split; [exact Hgate|].
  unfold ingest at 1. rewrite Hgate.
  subst d1. unfold ingest. apply updateData_twice. exact Hstable.
Qed.

End Slots.

(* ------------------------------------------------------------------ *)
(** ** Classification and titles *)

(** A loop that appends the selected elements is a filter. *)
Lemma fold_left_select {A : Type} (p : A -> bool) (l acc : list A) :
  fold_left (fun w x => if p x then w ++ [x] else w) l acc = acc ++ filter p l.
Proof.
  revert acc. induction l as [|x l IH]; intros acc; simpl.
  - now rewrite app_nil_r.
  - rewrite IH. destruct (p x); [|reflexivity].
    rewrite <- app_assoc. reflexivity.
Qed.

Lemma fold_left_select_nested {A B : Type} (sub : A -> list B) (p : B -> bool)
    (l : list A) (acc : list B) :
  fold_left
    (fun w a => fold_left (fun w x => if p x then w ++ [x] else w) (sub a) w)
    l acc
  = acc ++ flat_map (fun a => filter p (sub a)) l.
Proof.
  revert acc. induction l as [|a l IH]; intros acc; simpl.
  - now rewrite app_nil_r.
  - rewrite IH, fold_left_select, <- app_assoc. reflexivity.
Qed.

Section Classification.

Context {QJsonObject : Type}.
Variable Frame_read : Frame -> QJsonObject -> bool * Frame.
Implicit Type d : Dashboard QJsonObject.

Lemma getWidgetGroups_filter d (handle : string) :
  getWidgetGroups d handle =
  filter (fun g => String.eqb (toLower (group_widget g)) handle)
    (frame_groups (m_latestFrame d)).
Proof. unfold getWidgetGroups. now rewrite fold_left_select. Qed.

Lemma getWidgetDatasets_filter d (handle : string) :
  getWidgetDatasets d handle =
  flat_map
    (fun g => filter (fun s => String.eqb (dataset_widget s) handle)
                (group_datasets g))
    (frame_groups (m_latestFrame d)).
Proof.
  unfold getWidgetDatasets.
  now rewrite (fold_left_select_nested group_datasets
                 (fun s => String.eqb (dataset_widget s) handle)).
Qed.

(** The group path lowers the handle before the comparison: a group whose
    handle is the tag in any letter case is selected. *)
Lemma getWidgetGroups_any_case d (g : Group) (tag : string) :
  In g (frame_groups (m_latestFrame d)) ->
  toLower (group_widget g) = tag ->
  In g (getWidgetGroups d tag).
Proof.
  intros Hin Htag. rewrite getWidgetGroups_filter. apply filter_In.
  split; [assumption|]. apply String.eqb_eq. assumption.
Qed.

(** The dataset path compares the handle as it is written: the selected
    datasets are those whose handle is the tag, letter for letter. *)
Lemma getWidgetDatasets_exact d (s : Dataset) (tag : string) :
  In s (getWidgetDatasets d tag) <->
  exists g, In g (frame_groups (m_latestFrame d)) /\
            In s (group_datasets g) /\ dataset_widget s = tag.
Proof.
  rewrite getWidgetDatasets_filter, in_flat_map. split.
  - intros [g [Hg Hs]]. apply filter_In in Hs. destruct Hs as [Hs He].
    exists g. repeat split; try assumption. now apply String.eqb_eq.
  - intros [g [Hg [Hs He]]]. exists g. split; [assumption|].
    apply filter_In. split; [assumption|]. now apply String.eqb_eq.
Qed.

(** C9. On a frame whose only group is tagged "MAP" and whose only dataset
    is tagged "BAR", handles that differ from the tags "map" and "bar" in
    letter case only: the group is selected for the map widgets, but the
    dataset is not selected for the bar widgets. *)
Theorem getWidgetDatasets_case_sensitive d :
  let d' := set_latestFrame d Sample.capitalsFrame in
  toLower "MAP" = "map" /\ toLower "BAR" = "bar" /\
  getWidgetGroups d' "map"
    = [mkGroup "position" "MAP" [mkDataset "level" "BAR" false]] /\
  getWidgetDatasets d' "bar" = [].
Proof. repeat split. Qed.

(** C8. [widgetTitles] is the concatenation of the title lists of the nine
    kinds in the order Group, Plot, Bar, Gauge, Thermometer, Compass,
    Gyroscope, Accelerometer, Map.  After an update with the frame of
    scenario 7 (group A tagged "map" without datasets, group B untagged
    with three plottable, untagged datasets) the counts are 2 groups,
    3 plots and 1 map, the total is 6 and the titles are those of A, B,
    the three datasets and A again. *)
Theorem widgetTitles_kind_table_order d d0 (tF tA tB t1 t2 t3 : string) :
  Frame_read (m_latestFrame d0) (jsonDocument (m_latestJsonFrame d0))
    = (true, Sample.scenarioFrame tF tA tB t1 t2 t3) ->
  let d' := fst (updateData Frame_read d0) in
  widgetTitles d = List.concat (List.map (fun k => kindTitles k d) kind_table) /\
  widgetTitles d' = [tA; tB; t1; t2; t3; tA] /\
  totalWidgetCount d' = 6 /\
  (forall k, widgetCount k d' =
             match k with
             | WidgetType.Group => 2
             | WidgetType.Plot => 3
             | WidgetType.Map => 1
             | _ => 0
             end).
Proof.
  intros Hread. rewrite (updateData_valid Frame_read d0 _ Hread). cbv zeta.
  split.
  - unfold widgetTitles, kind_table. cbn [List.map List.concat kindTitles].
    rewrite app_nil_r. reflexivity.
  - destruct (countsDiffer d0 _); cbn [fst]; repeat split.
Qed.

End Classification.

(* ------------------------------------------------------------------ *)
(** ** The statements on the concrete states *)

Lemma updateData_visibility_witness :
  visibility WidgetType.Plot (fst (updateData Sample.read Sample.pending))
    = [true; true; true] /\
  visibility WidgetType.Map (fst (updateData Sample.read Sample.pending))
    = [true] /\
  visibility WidgetType.Plot (fst (updateData Sample.read Sample.hidden))
    = [true; false; true].
Proof.
  destruct (updateData_visibility Sample.read Sample.pending Sample.demoFrame
              eq_refl) as [_ [Hrebuilt _]].
  destruct (updateData_visibility Sample.read Sample.hidden Sample.demoFrame
              eq_refl) as [_ [_ Hkept]].
  assert (exists k, widgetCount k (classified Sample.pending Sample.demoFrame)
                    <> widgetCount k Sample.pending) as Hdiffer
    by (exists WidgetType.Plot; vm_compute; discriminate).
  split; [exact (proj1 (Hrebuilt Hdiffer WidgetType.Plot))|].
  split; [exact (proj1 (Hrebuilt Hdiffer WidgetType.Map))|].
  apply (Hkept (fun k => match k with WidgetType.Unknown => eq_refl
                                    | _ => eq_refl end) WidgetType.Plot).
Defined.

Lemma updateData_unparseable_witness :
  let d := Sample.broken in
  let d' := fst (updateData Sample.clearingRead d) in
  (m_barWidgets d' = [] /\ m_mapWidgets d' = [] /\ m_plotWidgets d' = [] /\
   m_gaugeWidgets d' = [] /\ m_compassWidgets d' = [] /\
   m_gyroscopeWidgets d' = [] /\ m_thermometerWidgets d' = [] /\
   m_accelerometerWidgets d' = []) /\
  m_latestFrame d'
    = snd (Sample.clearingRead (m_latestFrame d)
             (jsonDocument (m_latestJsonFrame d))) /\
  m_latestJsonFrame d' = m_latestJsonFrame d /\
  (forall k, visibility k d' = visibility k d) /\
  snd (updateData Sample.clearingRead d) = [].
Proof.
  apply (updateData_unparseable Sample.clearingRead Sample.broken).
  reflexivity.
Defined.

Lemma updateData_early_return_counts_witness :
  let d := Sample.broken in
  let d' := fst (updateData Sample.read d) in
  (plotCount d' = 0 /\ barCount d' = 0 /\ gaugeCount d' = 0 /\
   thermometerCount d' = 0 /\ compassCount d' = 0 /\ gyroscopeCount d' = 0 /\
   accelerometerCount d' = 0 /\ mapCount d' = 0) /\
  groupCount (clearWidgets d) = groupCount d /\
  groupCount d' = count (frame_groups (m_latestFrame d')) /\
  totalWidgetCount d' = groupCount d'.
Proof.
  apply (updateData_early_return_counts Sample.read Sample.broken).
  - reflexivity.
  - vm_compute. discriminate.
Defined.

Lemma ingest_same_sequence_witness :
  let d1 := fst (ingest Sample.read Sample.initial Sample.demoInfo) in
  selectLatestJSON d1 Sample.rivalInfo = d1 /\
  ingest Sample.read d1 Sample.rivalInfo =
  (d1, if fst (Sample.read (m_latestFrame d1)
                 (jsonDocument (m_latestJsonFrame d1)))
       then [updated] else []).
Proof.
  apply (ingest_same_sequence Sample.read Sample.initial Sample.demoInfo
           Sample.rivalInfo).
  - intros f [g|]; reflexivity.
  - reflexivity.
Defined.

Lemma widgetTitles_kind_table_order_witness :
  let d := Sample.demo in
  let d' := fst (updateData Sample.read Sample.pending) in
  widgetTitles d = List.concat (List.map (fun k => kindTitles k d) kind_table) /\
  widgetTitles d' = ["position"; "signals"; "x"; "y"; "z"; "position"] /\
  totalWidgetCount d' = 6 /\
  (forall k, widgetCount k d' =
             match k with
             | WidgetType.Group => 2
             | WidgetType.Plot => 3
             | WidgetType.Map => 1
             | _ => 0
             end).
Proof.
  apply (widgetTitles_kind_table_order Sample.read Sample.demo Sample.pending
           "demo" "position" "signals" "x" "y" "z").
  reflexivity.
Defined.

(** C5, as stated: in the dashboard that shows the demo frame, the signals
    of [resetData] are not in the order that ends with [updated]. *)
Lemma resetData_updated_last_counterexample :
  snd (resetData Sample.read Sample.empty Sample.demo)
  <> [dataReset; titleChanged; widgetCountChanged; widgetVisibilityChanged;
      updated].
Proof. vm_compute. discriminate. Qed.

(** C4, as stated: the dashboard shows the demo frame and holds a document
    that describes no frame; with the reader that [resetData] counts on to
    make the stored frame invalid, the update that returns early has
    replaced the stored frame by the empty one. *)
Lemma updateData_unparseable_counterexample :
  let d := Sample.broken in
  let d' := fst (updateData Sample.clearingRead d) in
  fst (Sample.clearingRead (m_latestFrame d)
         (jsonDocument (m_latestJsonFrame d))) = false /\
  m_latestFrame d = Sample.demoFrame /\
  m_latestFrame d' = mkFrame "" [] /\
  m_latestFrame d' <> m_latestFrame d.
Proof. vm_compute. repeat split. discriminate. Qed.

(** C7, as stated: the demo frame, number 1, is ingested by the initial
    dashboard; the second ingestion with the same number emits [updated]. *)
Lemma ingest_same_sequence_counterexample :
  let first := ingest Sample.read Sample.initial Sample.demoInfo in
  let second := ingest Sample.read (fst first) Sample.demoInfo in
  snd second = [updated] /\ second <> (fst first, []).
Proof. vm_compute. split; [reflexivity | discriminate]. Qed.

(* ------------------------------------------------------------------ *)
(** ** Further properties: counts, titles and the global index *)

Lemma fold_left_collect {A B : Type} (f : A -> B) (l : list A) (acc : list B) :
  fold_left (fun w x => w ++ [f x]) l acc = acc ++ List.map f l.
Proof.
  revert acc. induction l as [|x l IH]; intros acc; simpl.
  - now rewrite app_nil_r.
  - rewrite IH, <- app_assoc. reflexivity.
Qed.

Lemma datasetTitles_map (vector : list Dataset) :
  datasetTitles vector = List.map dataset_title vector.
Proof. unfold datasetTitles. now rewrite fold_left_collect. Qed.

Lemma groupTitles_map (vector : list Group) :
  groupTitles vector = List.map group_title vector.
Proof. unfold groupTitles. now rewrite fold_left_collect. Qed.

Lemma count_app {A : Type} (l r : list A) : count (l ++ r) = count l + count r.
Proof. unfold count. rewrite length_app. lia. Qed.

Lemma nth_error_app_lt {A : Type} (l r : list A) (g : Z) :
  0 <= g < count l ->
  nth_error (l ++ r) (Z.to_nat g) = nth_error l (Z.to_nat g).
Proof. unfold count. intros H. apply nth_error_app1. lia. Qed.

Lemma nth_error_app_ge {A : Type} (l r : list A) (g : Z) :
  count l <= g ->
  nth_error (l ++ r) (Z.to_nat g) = nth_error r (Z.to_nat (g - count l)).
Proof.
  unfold count. intros H. rewrite nth_error_app2 by lia. f_equal. lia.
Qed.

Lemma nth_error_past {A : Type} (l : list A) (g : Z) :
  count l <= g -> nth_error l (Z.to_nat g) = None.
Proof. unfold count. intros H. apply nth_error_None. lia. Qed.

Section Titles.

Context {QJsonObject : Type}.
Implicit Type d : Dashboard QJsonObject.

Lemma kindTitles_count (k : WidgetType.t) d :
  count (kindTitles k d) = widgetCount k d.
Proof.
  destruct k; unfold kindTitles, widgetCount, frameGroupTitles, plotTitles,
    barTitles, gaugeTitles, thermometerTitles, compassTitles, gyroscopeTitles,
    accelerometerTitles, mapTitles;
    rewrite ?datasetTitles_map, ?groupTitles_map; unfold count;
    rewrite ?length_map; reflexivity.
Qed.

(** X1. When the sum of the nine counts fits an [int], the total widget
    count is that sum, and the dashboard is available exactly when some
    kind has a widget. *)
Theorem totalWidgetCount_sum d :
  countSum d <= INT_MAX ->
  totalWidgetCount d = countSum d /\
  (available d = true <-> exists k, 0 < widgetCount k d).
Proof.
  intros Hmax. pose proof (countSum_nonneg d) as Hnn.
  assert (totalWidgetCount d = countSum d) as Htotal.
  { rewrite totalWidgetCount_wrap. apply int_wrap_small.
    unfold in_int, INT_MIN, INT_MAX in *. lia. }
  split; [exact Htotal|].
  unfold available. rewrite Htotal, Z.ltb_lt. split.
  - intros Hpos.
    destruct (Z.ltb_spec 0 (widgetCount WidgetType.Group d));
      [eexists; eassumption|].
    destruct (Z.ltb_spec 0 (widgetCount WidgetType.Plot d));
      [eexists; eassumption|].
    destruct (Z.ltb_spec 0 (widgetCount WidgetType.Bar d));
      [eexists; eassumption|].
    destruct (Z.ltb_spec 0 (widgetCount WidgetType.Gauge d));
      [eexists; eassumption|].
    destruct (Z.ltb_spec 0 (widgetCount WidgetType.Thermometer d));
      [eexists; eassumption|].
    destruct (Z.ltb_spec 0 (widgetCount WidgetType.Compass d));
      [eexists; eassumption|].
    destruct (Z.ltb_spec 0 (widgetCount WidgetType.Gyroscope d));
      [eexists; eassumption|].
    destruct (Z.ltb_spec 0 (widgetCount WidgetType.Accelerometer d));
      [eexists; eassumption|].
    exists WidgetType.Map. cbn [widgetCount] in *. unfold countSum in Hpos. lia.
  - intros [k Hk].
    pose proof (widgetCount_nonneg WidgetType.Group d).
    pose proof (widgetCount_nonneg WidgetType.Plot d).
    pose proof (widgetCount_nonneg WidgetType.Bar d).
    pose proof (widgetCount_nonneg WidgetType.Gauge d).
    pose proof (widgetCount_nonneg WidgetType.Thermometer d).
    pose proof (widgetCount_nonneg WidgetType.Compass d).
    pose proof (widgetCount_nonneg WidgetType.Gyroscope d).
    pose proof (widgetCount_nonneg WidgetType.Accelerometer d).
    pose proof (widgetCount_nonneg WidgetType.Map d).
    unfold countSum. destruct k; cbn [widgetCount] in *; lia.
Qed.

(** X2. For a global index that is an [int], [widgetType] answers
    [Unknown] exactly when the index is negative or at least the sum of the
    nine counts; in the second case [relativeIndex] answers -1. *)
Theorem widgetType_unknown_iff d (globalIndex : Z) :
  in_int globalIndex ->
  (widgetType d globalIndex = WidgetType.Unknown <->
   globalIndex < 0 \/ countSum d <= globalIndex) /\
  (countSum d <= globalIndex -> relativeIndex d globalIndex = -1).
Proof.
  intros [Hmin Hmax]. split.
  - split.
    + intros Hunknown.
      destruct (Z.ltb_spec globalIndex 0); [left; assumption|].
      destruct (Z.ltb_spec globalIndex (countSum d)); [|right; assumption].
      destruct (walk_in_range d globalIndex) as [Hknown _];
        [split; assumption | assumption | contradiction].
    + intros [Hneg | Hpast].
      * apply (proj1 (walk_negative d globalIndex Hneg)).
      * apply (proj1 (walk_above_sum d globalIndex (conj Hpast Hmax))).
  - intros Hpast.
    apply (proj2 (walk_above_sum d globalIndex (conj Hpast Hmax))).
Qed.

(** X3. [widgetTitles] has one entry for each widget: its length is the
    sum of the nine counts. *)
Theorem widgetTitles_count d : count (widgetTitles d) = countSum d.
Proof.
  pose proof (kindTitles_count WidgetType.Group d).
  pose proof (kindTitles_count WidgetType.Plot d).
  pose proof (kindTitles_count WidgetType.Bar d).
  pose proof (kindTitles_count WidgetType.Gauge d).
  pose proof (kindTitles_count WidgetType.Thermometer d).
  pose proof (kindTitles_count WidgetType.Compass d).
  pose proof (kindTitles_count WidgetType.Gyroscope d).
  pose proof (kindTitles_count WidgetType.Accelerometer d).
  pose proof (kindTitles_count WidgetType.Map d).
  cbn [kindTitles widgetCount] in *.
  unfold widgetTitles, countSum. rewrite !count_app. lia.
Qed.

End Titles.

Section TitleOrder.

Context {QJsonObject : Type}.
Implicit Type d : Dashboard QJsonObject.

(** One kind of the walk, on the side of the titles and on the side of
    the index. *)
Ltac title_step :=
  match goal with
  | |- context [?i <? count ?t] =>
      destruct (Z.ltb_spec i (count t));
      [ rewrite ?nth_error_app_lt by lia; reflexivity
      | rewrite ?nth_error_app_ge by lia;
        rewrite ?(int_sub_small i (count t)) by lia ]
  end.

(** X4. The global index addresses [widgetTitles]: for every global index
    from 0 to [INT_MAX], the entry of [widgetTitles] at that index is the
    entry of the title list of the kind given by [widgetType], at the
    local index given by [relativeIndex]; past the last widget both sides
    have no entry. *)
Theorem widgetTitles_resolve d (globalIndex : Z) :
  0 <= globalIndex <= INT_MAX ->
  nth_error (widgetTitles d) (Z.to_nat globalIndex)
  = nth_error (kindTitles (widgetType d globalIndex) d)
      (Z.to_nat (relativeIndex d globalIndex)).
Proof.
  intros Hg.
  pose proof (kindTitles_count WidgetType.Group d) as E1.
  pose proof (kindTitles_count WidgetType.Plot d) as E2.
  pose proof (kindTitles_count WidgetType.Bar d) as E3.
  pose proof (kindTitles_count WidgetType.Gauge d) as E4.
  pose proof (kindTitles_count WidgetType.Thermometer d) as E5.
  pose proof (kindTitles_count WidgetType.Compass d) as E6.
  pose proof (kindTitles_count WidgetType.Gyroscope d) as E7.
  pose proof (kindTitles_count WidgetType.Accelerometer d) as E8.
  pose proof (kindTitles_count WidgetType.Map d) as E9.
  cbn [kindTitles widgetCount] in *.
  unfold widgetType, relativeIndex, widgetTitles, kindTitles.
  rewrite <- E1, <- E2, <- E3, <- E4, <- E5, <- E6, <- E7, <- E8, <- E9.
  clear E1 E2 E3 E4 E5 E6 E7 E8 E9.
  pose proof (count_nonneg (frameGroupTitles d)).
  pose proof (count_nonneg (plotTitles d)).
  pose proof (count_nonneg (barTitles d)).
  pose proof (count_nonneg (gaugeTitles d)).
  pose proof (count_nonneg (thermometerTitles d)).
  pose proof (count_nonneg (compassTitles d)).
  pose proof (count_nonneg (gyroscopeTitles d)).
  pose proof (count_nonneg (accelerometerTitles d)).
  pose proof (count_nonneg (mapTitles d)).
  generalize dependent (frameGroupTitles d).
  generalize dependent (plotTitles d).
  generalize dependent (barTitles d).
  generalize dependent (gaugeTitles d).
  generalize dependent (thermometerTitles d).
  generalize dependent (compassTitles d).
  generalize dependent (gyroscopeTitles d).
  generalize dependent (accelerometerTitles d).
  generalize dependent (mapTitles d).
  intros.
  destruct (Z.ltb_spec globalIndex 0); [lia|].
  do 9 title_step.
  rewrite nth_error_past by lia. reflexivity.
Qed.

End TitleOrder.

Lemma widgetTitles_resolve_witness :
  nth_error (widgetTitles Sample.demo) (Z.to_nat 3)
  = nth_error (kindTitles (widgetType Sample.demo 3) Sample.demo)
      (Z.to_nat (relativeIndex Sample.demo 3)).
Proof.
  apply (widgetTitles_resolve Sample.demo 3). vm_compute.
  split; discriminate.
Defined.

Lemma totalWidgetCount_sum_witness :
  totalWidgetCount Sample.demo = countSum Sample.demo /\
  (available Sample.demo = true <-> exists k, 0 < widgetCount k Sample.demo).
Proof.
  apply (totalWidgetCount_sum Sample.demo). vm_compute. discriminate.
Defined.

Lemma widgetType_unknown_iff_witness :
  (widgetType Sample.demo 6 = WidgetType.Unknown <->
   6 < 0 \/ countSum Sample.demo <= 6) /\
  (countSum Sample.demo <= 6 -> relativeIndex Sample.demo 6 = -1).
Proof.
  apply (widgetType_unknown_iff Sample.demo 6). vm_compute.
  split; discriminate.
Defined.

(* ------------------------------------------------------------------ *)
(** ** Further properties: the visibility vectors and [getGroup] *)

Lemma replace_nth_length {A : Type} (v : list A) (n : nat) (a : A) :
  List.length (replace_nth v n a) = List.length v.
Proof.
  revert n. induction v as [|x v IH]; intros [|n]; simpl; try reflexivity.
  now rewrite IH.
Qed.

Lemma replace_nth_same {A : Type} (v : list A) (n : nat) (a : A) :
  (n < List.length v)%nat -> nth_error (replace_nth v n a) n = Some a.
Proof.
  revert n. induction v as [|x v IH]; intros [|n]; simpl; intros H;
    try lia; try reflexivity.
  apply IH. lia.
Qed.

Lemma replace_nth_other {A : Type} (v : list A) (n m : nat) (a : A) :
  m <> n -> nth_error (replace_nth v n a) m = nth_error v m.
Proof.
  revert n m. induction v as [|x v IH]; intros [|n] [|m] H; simpl;
    try reflexivity; try congruence.
  apply IH. congruence.
Qed.

(** Inside the vector, [getVisibility] reads the flag at the index. *)
Lemma getVisibility_inside (vector : list bool) (index : Z) (b : bool) :
  0 <= index ->
  nth_error vector (Z.to_nat index) = Some b ->
  getVisibility vector index = Done b.
Proof.
  intros Hi Hnth. unfold getVisibility, QVector_at.
  assert (Z.to_nat index < List.length vector)%nat as Hlt
    by (apply nth_error_Some; congruence).
  destruct (Z.ltb_spec index (count vector)); [|unfold count in *; lia].
  destruct (Z.ltb_spec index 0); [lia|].
  rewrite Hnth. reflexivity.
Qed.

(** From 0 on, [getVisibility] always has an answer. *)
Lemma getVisibility_nonneg (vector : list bool) (index : Z) :
  0 <= index -> exists b, getVisibility vector index = Done b.
Proof.
  intros Hi. destruct (nth_error vector (Z.to_nat index)) as [b|] eqn:Hnth.
  - exists b. now apply getVisibility_inside.
  - exists false. apply getVisibility_above.
    apply nth_error_None in Hnth. unfold count. lia.
Qed.

(** X5. Inside the vector, [setVisibility] writes the flag at the index and
    emits [widgetVisibilityChanged] once: the vector keeps its length,
    [getVisibility] at that index answers the flag written, and at every
    other index it answers what it answered before. *)
Theorem setVisibility_getVisibility
  (vector : list bool) (index : Z) (visible : bool) :
  0 <= index < count vector ->
  exists vector',
    setVisibility vector index visible
      = Done (vector', [widgetVisibilityChanged]) /\
    count vector' = count vector /\
    getVisibility vector' index = Done visible /\
    (forall j, j <> index -> getVisibility vector' j = getVisibility vector j).
Proof.
  intros [Hlo Hhi]. exists (replace_nth vector (Z.to_nat index) visible).
  assert (count (replace_nth vector (Z.to_nat index) visible) = count vector)
    as Hcount by (unfold count; now rewrite replace_nth_length).
  repeat split.
  - unfold setVisibility, QVector_set.
    destruct (Z.ltb_spec index (count vector)); [|lia].
    destruct (Z.ltb_spec index 0); [lia|].
    destruct (Z.leb_spec (count vector) index); [lia|]. reflexivity.
  - exact Hcount.
  - apply getVisibility_inside; [assumption|].
    apply replace_nth_same. unfold count in Hhi. lia.
  - intros j Hj. unfold getVisibility, QVector_at. rewrite Hcount.
    destruct (Z.ltb_spec j (count vector)); [|reflexivity].
    destruct (Z.ltb_spec j 0); [reflexivity|].
    rewrite replace_nth_other by lia. reflexivity.
Qed.

(** X6. At an index that is at least the length of the vector,
    [getVisibility] answers [false] and [setVisibility] changes nothing and
    emits no signal. *)
Theorem visibility_past_end (vector : list bool) (index : Z) (visible : bool) :
  count vector <= index ->
  getVisibility vector index = Done false /\
  setVisibility vector index visible = Done (vector, []).
Proof.
  intros H. split.
  - now apply getVisibility_above.
  - now apply setVisibility_above.
Qed.

Section Store.

Context {QJsonObject : Type}.
Implicit Type d : Dashboard QJsonObject.

(** X7. Each of the nine accessors reads, and each of the nine slots
    writes, the visibility vector of its own kind: the slot hands the vector
    to [setVisibility], stores the vector that comes back, passes on the
    signals, and leaves the vectors of the other kinds, the counts and the
    titles as they were. *)
Theorem visibilitySlots_own_vector (k : WidgetType.t)
  (get : Dashboard QJsonObject -> Z -> Access bool)
  (set : Dashboard QJsonObject -> Z -> bool
         -> Access (Dashboard QJsonObject * list Signal))
  d (index : Z) (visible : bool) :
  In (k, get, set) visibilitySlots ->
  get d index = getVisibility (visibility k d) index /\
  match setVisibility (visibility k d) index visible with
  | Done (vector, signals) =>
      exists d', set d index visible = Done (d', signals) /\
                 visibility k d' = vector /\
                 (forall k', k' <> k -> visibility k' d' = visibility k' d) /\
                 (forall k', widgetCount k' d' = widgetCount k' d) /\
                 widgetTitles d' = widgetTitles d
  | OutOfRange => set d index visible = OutOfRange
  end.
Proof.
  intros Hin. unfold visibilitySlots in Hin. simpl in Hin.
  repeat (destruct Hin as [Hin | Hin]; [inversion Hin; subst; clear Hin|]);
    try contradiction;
    (split; [reflexivity|]);
    cbn [visibility];
    unfold setBarVisible, setMapVisible, setPlotVisible, setGroupVisible,
      setGaugeVisible, setCompassVisible, setGyroscopeVisible,
      setThermometerVisible, setAccelerometerVisible, onVisibility;
    (destruct (setVisibility _ index visible) as [[vector signals]|];
     [ eexists; split; [reflexivity|]; split; [reflexivity|];
       split; [intros k' Hk'; destruct k'; try reflexivity; contradiction|];
       split; [intros k'; destruct k'; reflexivity | reflexivity]
     | reflexivity ]).
Qed.

(** A kind other than [Unknown] comes with a local index from 0 on. *)
Lemma walk_local_nonneg d (g : Z) :
  0 <= g <= INT_MAX ->
  widgetType d g <> WidgetType.Unknown -> 0 <= relativeIndex d g.
Proof.
  intros Hg Hknown.
  destruct (Z.ltb_spec g (countSum d)).
  - now apply (walk_in_range d g).
  - exfalso. apply Hknown. apply (walk_above_sum d g). lia.
Qed.

(** X8. For a global index that is an [int], [widgetVisible] always has an
    answer, also when the visibility vectors are shorter than the counts;
    for a negative index and for an index past the last widget the answer
    is [false]. *)
Theorem widgetVisible_total d (globalIndex : Z) :
  in_int globalIndex ->
  (exists b, widgetVisible d globalIndex = Done b) /\
  (globalIndex < 0 \/ countSum d <= globalIndex ->
   widgetVisible d globalIndex = Done false).
Proof.
  intros [Hmin Hmax]. split.
  - destruct (Z.ltb_spec globalIndex 0) as [Hneg | Hpos].
    + exists false. unfold widgetVisible.
      now rewrite (proj1 (walk_negative d globalIndex Hneg)).
    + pose proof (walk_local_nonneg d globalIndex (conj Hpos Hmax)) as Hloc.
      unfold widgetVisible.
      destruct (widgetType d globalIndex);
        try (apply getVisibility_nonneg, Hloc; discriminate).
      exists false. reflexivity.
  - intros [Hneg | Hpast]; unfold widgetVisible.
    + now rewrite (proj1 (walk_negative d globalIndex Hneg)).
    + now rewrite (proj1 (walk_above_sum d globalIndex (conj Hpast Hmax))).
Qed.

(** X9. For an index from 0 to below the group count, [getGroup] answers
    the group at that index of the stored frame; the same number, taken as
    a global index, resolves to the kind Group with that local index, and
    the entry of [widgetTitles] there is the title of that group. *)
Theorem getGroup_inside d (index : Z) :
  0 <= index < groupCount d ->
  exists group,
    getGroup d index = Done (Some group) /\
    nth_error (frame_groups (m_latestFrame d)) (Z.to_nat index) = Some group /\
    widgetType d index = WidgetType.Group /\
    relativeIndex d index = index /\
    nth_error (widgetTitles d) (Z.to_nat index) = Some (group_title group).
Proof.
  intros [Hlo Hhi]. unfold groupCount, Frame_groupCount in Hhi.
  destruct (nth_error (frame_groups (m_latestFrame d)) (Z.to_nat index))
    as [group|] eqn:Hnth.
  2:{ apply nth_error_None in Hnth. unfold count in Hhi. lia. }
  exists group. repeat split.
  - unfold getGroup, Frame_groupCount, QVector_at.
    destruct (Z.ltb_spec index (count (frame_groups (m_latestFrame d))));
      [|lia].
    destruct (Z.ltb_spec index 0); [lia|]. now rewrite Hnth.
  - unfold widgetType, groupCount, Frame_groupCount.
    destruct (Z.ltb_spec index 0); [lia|].
    destruct (Z.ltb_spec index (count (frame_groups (m_latestFrame d))));
      [reflexivity | lia].
  - unfold relativeIndex, groupCount, Frame_groupCount.
    destruct (Z.ltb_spec index (count (frame_groups (m_latestFrame d))));
      [reflexivity | lia].
  - unfold widgetTitles. rewrite nth_error_app_lt.
    + unfold frameGroupTitles. rewrite groupTitles_map.
      rewrite nth_error_map, Hnth. reflexivity.
    + pose proof (kindTitles_count WidgetType.Group d) as E.
      cbn [kindTitles widgetCount] in E. rewrite E.
      unfold groupCount, Frame_groupCount. lia.
Qed.

(** X10. Outside the group vector [getGroup] has two behaviours: from the
    group count on it answers [nullptr]; for a negative index the only test
    of the function passes and the vector is indexed out of its bounds. *)
Theorem getGroup_outside d (index : Z) :
  index < 0 \/ groupCount d <= index ->
  getGroup d index = if index <? 0 then OutOfRange else Done None.
Proof.
  pose proof (count_nonneg (frame_groups (m_latestFrame d))) as Hnn.
  unfold groupCount, getGroup, Frame_groupCount, QVector_at.
  intros [Hneg | Hpast].
  - destruct (Z.ltb_spec index (count (frame_groups (m_latestFrame d))));
      [|lia].
    destruct (Z.ltb_spec index 0); [reflexivity | lia].
  - destruct (Z.ltb_spec index (count (frame_groups (m_latestFrame d))));
      [lia|].
    destruct (Z.ltb_spec index 0); [lia | reflexivity].
Qed.

End Store.

(* ------------------------------------------------------------------ *)
(** ** Further properties: admission, reset and update *)

Section Frames.

Context {QJsonObject : Type}.
Variable Frame_read : Frame -> QJsonObject -> bool * Frame.
Variable JFI_Empty : JFI_Object QJsonObject.
Implicit Type d : Dashboard QJsonObject.

Lemma widgetVisible_cases d (g : Z) :
  widgetVisible d g =
  match widgetType d g with
  | WidgetType.Unknown => Done false
  | k => getVisibility (visibility k d) (relativeIndex d g)
  end.
Proof. unfold widgetVisible. destruct (widgetType d g); reflexivity. Qed.

Lemma selectLatestJSON_step d (frameInfo : JFI_Object QJsonObject) :
  let d' := selectLatestJSON d frameInfo in
  frameNumber (m_latestJsonFrame d')
    = Z.max (frameNumber (m_latestJsonFrame d)) (frameNumber frameInfo) /\
  (m_latestJsonFrame d' = m_latestJsonFrame d \/
   m_latestJsonFrame d' = frameInfo) /\
  m_latestFrame d' = m_latestFrame d /\
  (forall k, widgetCount k d' = widgetCount k d) /\
  (forall k, visibility k d' = visibility k d).
Proof.
  unfold selectLatestJSON.
  destruct (Z.ltb_spec (frameNumber (m_latestJsonFrame d))
              (frameNumber frameInfo)).
  - cbn [set_latestJsonFrame m_latestJsonFrame m_latestFrame].
    repeat split; try lia; auto.
  - repeat split; try lia; auto.
Qed.

(** X11. After any sequence of deliveries to [selectLatestJSON] the frame
    number held is the greatest of the number held before and the numbers
    delivered, so it never goes down; the document held is the one held
    before or one of those delivered; and neither the frame, the counts nor
    the visibility vectors have changed. *)
Theorem selectLatestJSON_sequence
  (deliveries : list (JFI_Object QJsonObject)) d :
  let d' := fold_left selectLatestJSON deliveries d in
  frameNumber (m_latestJsonFrame d')
    = fold_left Z.max (List.map frameNumber deliveries)
        (frameNumber (m_latestJsonFrame d)) /\
  frameNumber (m_latestJsonFrame d) <= frameNumber (m_latestJsonFrame d') /\
  (m_latestJsonFrame d' = m_latestJsonFrame d \/
   In (m_latestJsonFrame d') deliveries) /\
  m_latestFrame d' = m_latestFrame d /\
  (forall k, widgetCount k d' = widgetCount k d) /\
  (forall k, visibility k d' = visibility k d).
Proof.
  revert d. induction deliveries as [|frameInfo rest IH]; intros d.
  - cbn [fold_left List.map]. repeat split; auto. lia.
  - cbn [fold_left List.map].
    destruct (selectLatestJSON_step d frameInfo)
      as [Hnum [Hdoc [Hframe [Hcount Hvis]]]].
    destruct (IH (selectLatestJSON d frameInfo))
      as [Hnum' [Hle' [Hdoc' [Hframe' [Hcount' Hvis']]]]].
    cbv zeta in *.
    repeat split.
    + rewrite Hnum', Hnum. reflexivity.
    + rewrite Hnum in Hle'. lia.
    + destruct Hdoc' as [Hsame | Hin].
      * rewrite Hsame. destruct Hdoc as [Hold | Hnew];
          [left; exact Hold | right; left; symmetry; exact Hnew].
      * right. right. exact Hin.
    + congruence.
    + intros k. rewrite Hcount'. apply Hcount.
    + intros k. rewrite Hvis'. apply Hvis.
Qed.

Lemma resetData_eq d :
  fst (resetData Frame_read JFI_Empty d) =
  mkDashboard
    (snd (Frame_read (m_latestFrame d) (jsonDocument JFI_Empty)))
    JFI_Empty [] [] [] [] [] [] [] [] [] [] [] [] [] [] [] [] [].
Proof.
  destruct_state d. unfold_state.
  destruct (Frame_read f0 (jsonDocument JFI_Empty)) as [ok fr]. reflexivity.
Qed.

(** X12. After [resetData] the document held is [JFI_Empty()], the eight
    cached collections and the nine visibility vectors are empty, and
    [widgetVisible] answers [false] for every global index that is an
    [int], whatever [read] has left in the stored frame. *)
Theorem resetData_hides_all d (globalIndex : Z) :
  in_int globalIndex ->
  let d' := fst (resetData Frame_read JFI_Empty d) in
  m_latestJsonFrame d' = JFI_Empty /\
  (forall k, k <> WidgetType.Group -> widgetCount k d' = 0) /\
  (forall k, visibility k d' = []) /\
  widgetVisible d' globalIndex = Done false.
Proof.
  intros [Hmin Hmax]. cbv zeta. rewrite resetData_eq.
  set (d' := mkDashboard _ _ _ _ _ _ _ _ _ _ _ _ _ _ _ _ _ _ _).
  assert (forall k, visibility k d' = []) as Hvis
    by (intros k; destruct k; reflexivity).
  repeat split.
  - intros k Hk. destruct k; try reflexivity. contradiction.
  - exact Hvis.
  - rewrite widgetVisible_cases.
    destruct (Z.ltb_spec globalIndex 0) as [Hneg | Hpos].
    + now rewrite (proj1 (walk_negative d' globalIndex Hneg)).
    + pose proof (walk_local_nonneg d' globalIndex (conj Hpos Hmax)) as Hloc.
      destruct (widgetType d' globalIndex); try reflexivity;
        rewrite Hvis; apply getVisibility_above; apply Hloc; discriminate.
Qed.

(** X13. [resetData] restarts the admission gate: right after it, every
    delivery whose frame number is above that of [JFI_Empty()] is admitted,
    also one whose number is not above the number held before the reset. *)
Theorem resetData_reopens_gate d (frameInfo : JFI_Object QJsonObject) :
  frameNumber JFI_Empty < frameNumber frameInfo ->
  m_latestJsonFrame
    (selectLatestJSON (fst (resetData Frame_read JFI_Empty d)) frameInfo)
  = frameInfo.
Proof.
  intros Hlt. rewrite resetData_eq. unfold selectLatestJSON.
  cbn [m_latestJsonFrame].
  destruct (Z.ltb_spec (frameNumber JFI_Empty) (frameNumber frameInfo));
    [reflexivity | lia].
Qed.

Lemma countsDiffer_true d d' :
  countsDiffer d d' = true -> exists k, widgetCount k d' <> widgetCount k d.
Proof.
  unfold countsDiffer. rewrite !orb_true_iff, !negb_true_iff, !Z.eqb_neq.
  intros [[[[[[[[H|H]|H]|H]|H]|H]|H]|H]|H].
  - exists WidgetType.Bar. cbn. congruence.
  - exists WidgetType.Map. cbn. congruence.
  - exists WidgetType.Plot. cbn. congruence.
  - exists WidgetType.Gauge. cbn. congruence.
  - exists WidgetType.Group. cbn. congruence.
  - exists WidgetType.Compass. cbn. congruence.
  - exists WidgetType.Gyroscope. cbn. congruence.
  - exists WidgetType.Thermometer. cbn. congruence.
  - exists WidgetType.Accelerometer. cbn. congruence.
Qed.

(** The state and the flags of an update with a document that parses. *)
Lemma updateData_valid_cases d (fr : Frame) :
  Frame_read (m_latestFrame d) (jsonDocument (m_latestJsonFrame d)) = (true, fr) ->
  exists d' (retitled regenerated : bool),
    updateData Frame_read d =
      (d', (if retitled then [titleChanged] else [])
           ++ (if regenerated
               then [widgetCountChanged; widgetVisibilityChanged] else [])
           ++ [updated]) /\
    (retitled = true <-> title d' <> title d) /\
    (regenerated = true <-> exists k, widgetCount k d' <> widgetCount k d) /\
    (forall k, widgetCount k d' = widgetCount k (classified d fr)) /\
    widgetTitles d' = widgetTitles (classified d fr) /\
    (forall k, visibility k d' =
               if regenerated
               then repeat true (Z.to_nat (widgetCount k d'))
               else visibility k d).
Proof.
  intros Hread. rewrite (updateData_valid Frame_read d fr Hread). cbv zeta.
  destruct (countsDiffer d (classified d fr)) eqn:Hflag.
  - exists (allVisible (classified d fr)),
      (negb (String.eqb (title d) (title (classified d fr)))), true.
    split; [reflexivity|]. split; [|split; [|split; [|split]]].
    + rewrite negb_true_iff, String.eqb_neq.
      change (title (allVisible (classified d fr))) with (title (classified d fr)).
      split; intros H E; apply H; now symmetry.
    + split; [intros _|reflexivity].
      destruct (countsDiffer_true _ _ Hflag) as [k Hk]. exists k.
      now rewrite allVisible_widgetCount.
    + intros k. apply allVisible_widgetCount.
    + reflexivity.
    + intros k. rewrite allVisible_visibility, allVisible_widgetCount.
      reflexivity.
  - exists (classified d fr),
      (negb (String.eqb (title d) (title (classified d fr)))), false.
    split; [reflexivity|]. split; [|split; [|split; [|split]]].
    + rewrite negb_true_iff, String.eqb_neq.
      split; intros H E; apply H; now symmetry.
    + split; [discriminate|]. intros [k Hk]. exfalso. apply Hk.
      now apply (countsDiffer_false d (classified d fr)).
    + reflexivity.
    + reflexivity.
    + intros k. apply classified_visibility.
Qed.

(** X14. The signals of [updateData]: [updated] is emitted exactly when the
    document parses, and then last and once; [titleChanged] exactly when,
    in addition, the title differs from the one at entry;
    [widgetCountChanged] exactly when, in addition, some kind's count
    differs from the one at entry, and [widgetVisibilityChanged] exactly
    when [widgetCountChanged] is; [dataReset] is never emitted and no
    signal is emitted twice. *)
Theorem updateData_signals d :
  let ok := fst (Frame_read (m_latestFrame d)
                   (jsonDocument (m_latestJsonFrame d))) in
  let d' := fst (updateData Frame_read d) in
  let signals := snd (updateData Frame_read d) in
  (In updated signals <-> ok = true) /\
  (ok = true -> last signals dataReset = updated) /\
  (In titleChanged signals <-> ok = true /\ title d' <> title d) /\
  (In widgetCountChanged signals <->
   ok = true /\ exists k, widgetCount k d' <> widgetCount k d) /\
  (In widgetVisibilityChanged signals <-> In widgetCountChanged signals) /\
  ~ In dataReset signals /\
  NoDup signals.
Proof.
  cbv zeta.
  destruct (Frame_read (m_latestFrame d) (jsonDocument (m_latestJsonFrame d)))
    as [[|] fr] eqn:Hread; cbn [fst].
  - destruct (updateData_valid_cases d fr Hread)
      as [d' [retitled [regenerated [Heq [Htitle [Hregen _]]]]]].
    rewrite Heq. cbn [fst snd].
    destruct retitled, regenerated; cbn [app].
    all: repeat split; simpl; intros.
    all: try solve [simpl in *; intuition (try discriminate)].
    all: try solve [apply Htitle; reflexivity].
    all: try solve [apply Hregen; reflexivity].
    all: repeat (apply NoDup_cons; [simpl; intuition discriminate|]).
    all: apply NoDup_nil.
  - rewrite (updateData_invalid Frame_read d fr Hread). cbn [fst snd].
    repeat split; simpl; intros.
    all: try solve [simpl in *; intuition (try discriminate)].
    apply NoDup_nil.
Qed.

End Frames.

Lemma filter_exclusive_length {A : Type} (p1 p2 p3 : A -> bool) (l : list A) :
  (forall x, p1 x = true -> p2 x = false /\ p3 x = false) ->
  (forall x, p2 x = true -> p3 x = false) ->
  count (filter p1 l) + count (filter p2 l) + count (filter p3 l) <= count l.
Proof.
  intros H1 H2. unfold count.
  induction l as [|x l IH]; cbn [filter List.length]; [lia|].
  destruct (p1 x) eqn:E1.
  - destruct (H1 x E1) as [E2 E3]. rewrite E2, E3. cbn [List.length]. lia.
  - destruct (p2 x) eqn:E2.
    + rewrite (H2 x E2). cbn [List.length]. lia.
    + destruct (p3 x); cbn [List.length]; lia.
Qed.

Lemma lower_ascii_idempotent (c : ascii) :
  lower_ascii (lower_ascii c) = lower_ascii c.
Proof. destruct c as [[] [] [] [] [] [] [] []]; reflexivity. Qed.

Lemma toLower_idempotent (s : string) : toLower (toLower s) = toLower s.
Proof.
  induction s as [|c s IH]; simpl; [reflexivity|].
  now rewrite lower_ascii_idempotent, IH.
Qed.

Section Classified.

Context {QJsonObject : Type}.
Variable Frame_read : Frame -> QJsonObject -> bool * Frame.
Implicit Type d : Dashboard QJsonObject.

Lemma getPlotWidgets_filter d :
  getPlotWidgets d =
  flat_map (fun g => filter dataset_graph (group_datasets g))
    (frame_groups (m_latestFrame d)).
Proof.
  unfold getPlotWidgets.
  now rewrite (fold_left_select_nested group_datasets dataset_graph).
Qed.

(** X15. An update with a document that parses keeps the visibility
    vectors aligned with the counts: if every vector is as long as the
    count of its kind at entry, the same holds at exit. *)
Theorem updateData_keeps_aligned d :
  fst (Frame_read (m_latestFrame d) (jsonDocument (m_latestJsonFrame d))) = true ->
  aligned d ->
  aligned (fst (updateData Frame_read d)).
Proof.
  intros Hok Haligned.
  destruct (Frame_read _ _) as [ok fr] eqn:Hread. simpl in Hok. subst ok.
  destruct (updateData_valid_cases Frame_read d fr Hread)
    as [d' [retitled [regenerated [Heq [_ [Hregen [_ [_ Hvis]]]]]]]].
  rewrite Heq. cbn [fst]. intros k. rewrite Hvis.
  destruct regenerated.
  - apply count_repeat, widgetCount_nonneg.
  - rewrite Haligned.
    destruct (Z.eq_dec (widgetCount k d') (widgetCount k d)) as [E | E];
      [now symmetry|].
    assert (false = true) by (apply Hregen; now exists k). discriminate.
Qed.


(** X17. After an update that finds a changed count, every widget is
    visible: [widgetVisible] answers [true] for every global index from 0
    to below the new total widget count. *)
Theorem updateData_regenerated_all_visible d (globalIndex : Z) :
  fst (Frame_read (m_latestFrame d) (jsonDocument (m_latestJsonFrame d))) = true ->
  let d' := fst (updateData Frame_read d) in
  (exists k, widgetCount k d' <> widgetCount k d) ->
  0 <= globalIndex < totalWidgetCount d' ->
  widgetVisible d' globalIndex = Done true.
Proof.
  intros Hok.
  destruct (Frame_read _ _) as [ok fr] eqn:Hread. simpl in Hok. subst ok.
  destruct (updateData_valid_cases Frame_read d fr Hread)
    as [d' [retitled [regenerated [Heq [_ [Hregen [_ [_ Hvis]]]]]]]].
  cbv zeta. rewrite Heq. cbn [fst]. intros Hdiff [Hlo Hhi].
  apply Hregen in Hdiff. subst regenerated.
  pose proof (totalWidgetCount_le_sum d') as Hsum.
  pose proof (totalWidgetCount_in_int d') as [_ Hmax].
  destruct (walk_in_range d' globalIndex) as [Hknown Hlocal]; [lia | lia |].
  rewrite widgetVisible_cases.
  destruct (widgetType d' globalIndex) eqn:Hkind; [contradiction | ..];
    rewrite Hvis; (apply getVisibility_inside; [lia|]);
    apply nth_error_repeat; lia.
Qed.

(** X18. After an update with a document that parses, the stored frame is
    the one that [read] left, and each of the eight cached collections
    holds, in frame order, the datasets or groups of that frame selected
    for its kind: the plottable datasets; the groups whose lowered handle
    is "map", "gyro" or "accelerometer"; the datasets whose handle is
    "bar", "gauge", "compass" or "thermometer". *)
Theorem updateData_classifies d (fr : Frame) :
  Frame_read (m_latestFrame d) (jsonDocument (m_latestJsonFrame d)) = (true, fr) ->
  let d' := fst (updateData Frame_read d) in
  let groupsTagged tag :=
    filter (fun g => String.eqb (toLower (group_widget g)) tag)
      (frame_groups fr) in
  let datasetsTagged tag :=
    flat_map (fun g => filter (fun s => String.eqb (dataset_widget s) tag)
                         (group_datasets g))
      (frame_groups fr) in
  m_latestFrame d' = fr /\
  m_plotWidgets d' =
    flat_map (fun g => filter dataset_graph (group_datasets g))
      (frame_groups fr) /\
  m_mapWidgets d' = groupsTagged "map" /\
  m_gyroscopeWidgets d' = groupsTagged "gyro" /\
  m_accelerometerWidgets d' = groupsTagged "accelerometer" /\
  m_barWidgets d' = datasetsTagged "bar" /\
  m_gaugeWidgets d' = datasetsTagged "gauge" /\
  m_compassWidgets d' = datasetsTagged "compass" /\
  m_thermometerWidgets d' = datasetsTagged "thermometer".
Proof.
  intros Hread. cbv zeta.
  pose proof (getPlotWidgets_filter (set_latestFrame d fr)) as Hplot.
  pose proof (fun tag => getWidgetGroups_filter (set_latestFrame d fr) tag)
    as Hgroups.
  pose proof (fun tag => getWidgetDatasets_filter (set_latestFrame d fr) tag)
    as Hdatasets.
  change (m_latestFrame (set_latestFrame d fr)) with fr in *.
  rewrite (updateData_valid Frame_read d fr Hread). cbv zeta.
  destruct (countsDiffer d (classified d fr)); cbn [fst];
    (split; [reflexivity|]);
    (split; [exact Hplot|]);
    repeat (split; [first [apply Hgroups | apply Hdatasets]|]);
    apply Hdatasets.
Qed.

(** X19. After an update with a document that parses, every group of the
    frame is counted for at most one of the kinds Map, Gyroscope and
    Accelerometer: the three counts together do not exceed the group
    count. *)
Theorem updateData_group_kinds_exclusive d :
  fst (Frame_read (m_latestFrame d) (jsonDocument (m_latestJsonFrame d))) = true ->
  let d' := fst (updateData Frame_read d) in
  mapCount d' + gyroscopeCount d' + accelerometerCount d' <= groupCount d'.
Proof.
  intros Hok.
  destruct (Frame_read _ _) as [ok fr] eqn:Hread. simpl in Hok. subst ok.
  destruct (updateData_valid_cases Frame_read d fr Hread)
    as [d' [retitled [regenerated [Heq [_ [_ [Hcount _]]]]]]].
  cbv zeta. rewrite Heq. cbn [fst].
  pose proof (Hcount WidgetType.Map) as Hm.
  pose proof (Hcount WidgetType.Gyroscope) as Hy.
  pose proof (Hcount WidgetType.Accelerometer) as Ha.
  pose proof (Hcount WidgetType.Group) as Hg.
  cbn [widgetCount] in Hm, Hy, Ha, Hg. rewrite Hm, Hy, Ha, Hg.
  unfold mapCount, gyroscopeCount, accelerometerCount, groupCount,
    Frame_groupCount, classified.
  cbn [m_mapWidgets m_gyroscopeWidgets m_accelerometerWidgets m_latestFrame].
  rewrite !getWidgetGroups_filter.
  change (m_latestFrame (set_latestFrame d fr)) with fr.
  apply filter_exclusive_length.
  - intros g Hmap. apply String.eqb_eq in Hmap. rewrite Hmap.
    split; reflexivity.
  - intros g Hgyro. apply String.eqb_eq in Hgyro. rewrite Hgyro. reflexivity.
Qed.

(** X20. The plot widgets are the plottable datasets of the frame, whatever
    their handle: a dataset is selected exactly when it belongs to a group
    of the stored frame and its [graph] flag is set.  A dataset selected for
    a handle is therefore selected for the plots as well when it is
    plottable. *)
Theorem getPlotWidgets_membership d (s : Dataset) :
  (In s (getPlotWidgets d) <->
   exists g, In g (frame_groups (m_latestFrame d)) /\
             In s (group_datasets g) /\ dataset_graph s = true) /\
  (forall tag, In s (getWidgetDatasets d tag) -> dataset_graph s = true ->
               In s (getPlotWidgets d)).
Proof.
  assert (In s (getPlotWidgets d) <->
          exists g, In g (frame_groups (m_latestFrame d)) /\
                    In s (group_datasets g) /\ dataset_graph s = true) as Hiff.
  { rewrite getPlotWidgets_filter, in_flat_map. split.
    - intros [g [Hg Hs]]. apply filter_In in Hs. destruct Hs as [Hs Hp].
      exists g. repeat split; assumption.
    - intros [g [Hg [Hs Hp]]]. exists g. split; [assumption|].
      apply filter_In. split; assumption. }
  split; [exact Hiff|].
  intros tag Hin Hgraph. apply Hiff.
  rewrite getWidgetDatasets_filter, in_flat_map in Hin.
  destruct Hin as [g [Hg Hs]]. apply filter_In in Hs. destruct Hs as [Hs _].
  exists g. repeat split; assumption.
Qed.

(** X21. A group is selected by [getWidgetGroups] exactly when it belongs
    to the stored frame and its handle, lowered, is the given handle; so a
    group is selected for at most one handle, and only for a handle that
    lowering leaves as it is: for a handle with a capital letter A-Z no
    group is selected. *)
Theorem getWidgetGroups_membership d (g : Group) (handle : string) :
  (In g (getWidgetGroups d handle) <->
   In g (frame_groups (m_latestFrame d)) /\
   toLower (group_widget g) = handle) /\
  (forall other, In g (getWidgetGroups d handle) ->
                 In g (getWidgetGroups d other) -> handle = other) /\
  (In g (getWidgetGroups d handle) -> toLower handle = handle).
Proof.
  assert (forall tag, In g (getWidgetGroups d tag) <->
                      In g (frame_groups (m_latestFrame d)) /\
                      toLower (group_widget g) = tag) as Hiff.
  { intros tag. rewrite getWidgetGroups_filter, filter_In, String.eqb_eq.
    reflexivity. }
  split; [apply Hiff|]. split.
  - intros other H1 H2. apply Hiff in H1. apply Hiff in H2.
    destruct H1 as [_ H1]. destruct H2 as [_ H2]. congruence.
  - intros H. apply Hiff in H. destruct H as [_ H]. rewrite <- H.
    apply toLower_idempotent.
Qed.

(** X22. A dataset is selected by [getWidgetDatasets] exactly when it
    belongs to a group of the stored frame and its handle is the given
    handle, letter for letter; so a dataset is selected for at most one
    handle. *)
Theorem getWidgetDatasets_membership d (s : Dataset) (handle : string) :
  (In s (getWidgetDatasets d handle) <->
   exists g, In g (frame_groups (m_latestFrame d)) /\
             In s (group_datasets g) /\ dataset_widget s = handle) /\
  (forall other, In s (getWidgetDatasets d handle) ->
                 In s (getWidgetDatasets d other) -> handle = other).
Proof.
  assert (forall tag, In s (getWidgetDatasets d tag) <->
            exists g, In g (frame_groups (m_latestFrame d)) /\
                      In s (group_datasets g) /\ dataset_widget s = tag)
    as Hiff.
  { intros tag. rewrite getWidgetDatasets_filter, in_flat_map. split.
    - intros [g [Hg Hs]]. apply filter_In in Hs. destruct Hs as [Hs He].
      exists g. repeat split; try assumption. now apply String.eqb_eq.
    - intros [g [Hg [Hs He]]]. exists g. split; [assumption|].
      apply filter_In. split; [assumption|]. now apply String.eqb_eq. }
  split; [apply Hiff|].
  intros other H1 H2. apply Hiff in H1. apply Hiff in H2.
  destruct H1 as [g1 [_ [_ H1]]]. destruct H2 as [g2 [_ [_ H2]]]. congruence.
Qed.

(** X23. [widgetIcon] answers the icon "close.svg" exactly for the global
    indexes that [widgetType] maps to [Unknown]: none of the nine kinds
    uses that icon. *)
Theorem widgetIcon_fallback d (globalIndex : Z) :
  widgetIcon d globalIndex = "qrc:/icons/close.svg" <->
  widgetType d globalIndex = WidgetType.Unknown.
Proof.
  unfold widgetIcon.
  destruct (widgetType d globalIndex); split; intros H;
    try reflexivity; discriminate H.
Qed.

End Classified.

(* ------------------------------------------------------------------ *)
(** ** The further properties on the concrete states *)

Lemma setVisibility_getVisibility_witness :
  exists vector',
    setVisibility [true; true; true] 1 false
      = Done (vector', [widgetVisibilityChanged]) /\
    count vector' = count [true; true; true] /\
    getVisibility vector' 1 = Done false /\
    (forall j, j <> 1 ->
               getVisibility vector' j = getVisibility [true; true; true] j).
Proof.
  apply (setVisibility_getVisibility [true; true; true] 1 false).
  vm_compute. split; [discriminate | reflexivity].
Defined.

Lemma visibility_past_end_witness :
  getVisibility [true; true; true] 10 = Done false /\
  setVisibility [true; true; true] 10 false = Done ([true; true; true], []).
Proof.
  apply (visibility_past_end [true; true; true] 10 false).
  vm_compute. discriminate.
Defined.

Lemma visibilitySlots_own_vector_witness :
  plotVisible Sample.demo 1
    = getVisibility (visibility WidgetType.Plot Sample.demo) 1 /\
  match setVisibility (visibility WidgetType.Plot Sample.demo) 1 false with
  | Done (vector, signals) =>
      exists d', setPlotVisible Sample.demo 1 false = Done (d', signals) /\
                 visibility WidgetType.Plot d' = vector /\
                 (forall k', k' <> WidgetType.Plot ->
                             visibility k' d' = visibility k' Sample.demo) /\
                 (forall k', widgetCount k' d' = widgetCount k' Sample.demo) /\
                 widgetTitles d' = widgetTitles Sample.demo
  | OutOfRange => setPlotVisible Sample.demo 1 false = OutOfRange
  end.
Proof.
  apply (visibilitySlots_own_vector WidgetType.Plot plotVisible setPlotVisible
           Sample.demo 1 false).
  simpl. right. right. left. reflexivity.
Defined.

Lemma widgetVisible_total_witness :
  (exists b, widgetVisible Sample.demo 3 = Done b) /\
  (3 < 0 \/ countSum Sample.demo <= 3 ->
   widgetVisible Sample.demo 3 = Done false).
Proof.
  apply (widgetVisible_total Sample.demo 3).
  vm_compute. split; discriminate.
Defined.

Lemma getGroup_inside_witness :
  exists group,
    getGroup Sample.demo 1 = Done (Some group) /\
    nth_error (frame_groups (m_latestFrame Sample.demo)) (Z.to_nat 1)
      = Some group /\
    widgetType Sample.demo 1 = WidgetType.Group /\
    relativeIndex Sample.demo 1 = 1 /\
    nth_error (widgetTitles Sample.demo) (Z.to_nat 1)
      = Some (group_title group).
Proof.
  apply (getGroup_inside Sample.demo 1).
  vm_compute. split; [discriminate | reflexivity].
Defined.

Lemma getGroup_outside_witness :
  getGroup Sample.demo (-1) = if -1 <? 0 then OutOfRange else Done None.
Proof.
  apply (getGroup_outside Sample.demo (-1)). left. reflexivity.
Defined.

Lemma resetData_hides_all_witness :
  let d' := fst (resetData Sample.read Sample.empty Sample.demo) in
  m_latestJsonFrame d' = Sample.empty /\
  (forall k, k <> WidgetType.Group -> widgetCount k d' = 0) /\
  (forall k, visibility k d' = []) /\
  widgetVisible d' 0 = Done false.
Proof.
  apply (resetData_hides_all Sample.read Sample.empty Sample.demo 0).
  vm_compute. split; discriminate.
Defined.

Lemma resetData_reopens_gate_witness :
  m_latestJsonFrame
    (selectLatestJSON (fst (resetData Sample.read Sample.empty Sample.demo))
       Sample.demoInfo)
  = Sample.demoInfo.
Proof.
  apply (resetData_reopens_gate Sample.read Sample.empty Sample.demo
           Sample.demoInfo).
  reflexivity.
Defined.

Lemma updateData_keeps_aligned_witness :
  aligned (fst (updateData Sample.read Sample.pending)).
Proof.
  apply (updateData_keeps_aligned Sample.read Sample.pending).
  - reflexivity.
  - intros k. destruct k; reflexivity.
Defined.


Lemma updateData_regenerated_all_visible_witness :
  widgetVisible (fst (updateData Sample.read Sample.pending)) 3 = Done true.
Proof.
  apply (updateData_regenerated_all_visible Sample.read Sample.pending 3).
  - reflexivity.
  - exists WidgetType.Plot. vm_compute. discriminate.
  - vm_compute. split; [discriminate | reflexivity].
Defined.

Lemma updateData_classifies_witness :
  let d' := fst (updateData Sample.read Sample.pending) in
  let groupsTagged tag :=
    filter (fun g => String.eqb (toLower (group_widget g)) tag)
      (frame_groups Sample.demoFrame) in
  let datasetsTagged tag :=
    flat_map (fun g => filter (fun s => String.eqb (dataset_widget s) tag)
                         (group_datasets g))
      (frame_groups Sample.demoFrame) in
  m_latestFrame d' = Sample.demoFrame /\
  m_plotWidgets d' =
    flat_map (fun g => filter dataset_graph (group_datasets g))
      (frame_groups Sample.demoFrame) /\
  m_mapWidgets d' = groupsTagged "map" /\
  m_gyroscopeWidgets d' = groupsTagged "gyro" /\
  m_accelerometerWidgets d' = groupsTagged "accelerometer" /\
  m_barWidgets d' = datasetsTagged "bar" /\
  m_gaugeWidgets d' = datasetsTagged "gauge" /\
  m_compassWidgets d' = datasetsTagged "compass" /\
  m_thermometerWidgets d' = datasetsTagged "thermometer".
Proof.
  apply (updateData_classifies Sample.read Sample.pending Sample.demoFrame).
  reflexivity.
Defined.

Lemma updateData_group_kinds_exclusive_witness :
  let d' := fst (updateData Sample.read Sample.pending) in
  mapCount d' + gyroscopeCount d' + accelerometerCount d' <= groupCount d'.
Proof.
  apply (updateData_group_kinds_exclusive Sample.read Sample.pending).
  reflexivity.
Defined.

(* ------------------------------------------------------------------ *)
(** ** Further properties: the walk and its inverse *)

Section Inverse.

Context {QJsonObject : Type}.
Implicit Type d : Dashboard QJsonObject.

Ltac count_facts d :=
  pose proof (count_nonneg (frame_groups (m_latestFrame d)));
  pose proof (count_nonneg (m_plotWidgets d));
  pose proof (count_nonneg (m_barWidgets d));
  pose proof (count_nonneg (m_gaugeWidgets d));
  pose proof (count_nonneg (m_thermometerWidgets d));
  pose proof (count_nonneg (m_compassWidgets d));
  pose proof (count_nonneg (m_gyroscopeWidgets d));
  pose proof (count_nonneg (m_accelerometerWidgets d));
  pose proof (count_nonneg (m_mapWidgets d));
  unfold groupCount, plotCount, barCount, gaugeCount, thermometerCount,
    compassCount, gyroscopeCount, accelerometerCount, mapCount,
    Frame_groupCount in *.

Ltac compare_step :=
  match goal with
  | |- context [?i <? ?c] =>
      destruct (Z.ltb_spec i c);
      [ | try rewrite (int_sub_small i c) in * by lia ]
  end.

(** X24. The walk splits a global index into the offset of its kind and the
    local index: for every global index from 0 to below the sum of the
    counts (and at most [INT_MAX]), the index is the number of widgets of the
    kinds before the kind answered by [widgetType], plus the local index
    answered by [relativeIndex].  Two global indexes with the same kind and
    local index are therefore equal. *)
Theorem walk_offset d (globalIndex : Z) :
  0 <= globalIndex <= INT_MAX ->
  globalIndex < countSum d ->
  globalIndex
  = kindOffset (widgetType d globalIndex) d + relativeIndex d globalIndex.
Proof.
  intros Hg Hsum.
  unfold widgetType, relativeIndex, kindOffset, countSum in *.
  count_facts d.
  destruct (Z.ltb_spec globalIndex 0); [lia|].
  repeat (compare_step; [lia|]).
  lia.
Qed.

(** X25. Every widget has a global index: for a kind other than [Unknown]
    and a local index from 0 to below the count of the kind, the offset of
    the kind plus the local index (when it is at most [INT_MAX]) is resolved
    by [widgetType] to that kind and by [relativeIndex] to that local
    index. *)
Theorem walk_inverse (k : WidgetType.t) d (localIndex : Z) :
  k <> WidgetType.Unknown ->
  0 <= localIndex < widgetCount k d ->
  kindOffset k d + localIndex <= INT_MAX ->
  widgetType d (kindOffset k d + localIndex) = k /\
  relativeIndex d (kindOffset k d + localIndex) = localIndex.
Proof.
  intros Hk Hlocal Hmax.
  unfold widgetType, relativeIndex.
  destruct k; [contradiction | ..];
    unfold kindOffset, widgetCount in *; count_facts d;
    match goal with
    | |- context [?g <? 0] => destruct (Z.ltb_spec g 0); [lia|]
    end;
    repeat (compare_step; [first [split; [reflexivity | lia] | lia] | ]);
    lia.
Qed.

(** X26. For every negative global index [widgetType] answers [Unknown]
    and [relativeIndex] answers the index itself. *)
Theorem walk_below_zero d (globalIndex : Z) :
  globalIndex < 0 ->
  widgetType d globalIndex = WidgetType.Unknown /\
  relativeIndex d globalIndex = globalIndex.
Proof. apply walk_negative. Qed.

(** X27. For every negative index and every vector, [getVisibility] and
    [setVisibility] pass their test and index the vector out of its
    bounds. *)
Theorem visibility_below_zero (vector : list bool) (index : Z) (visible : bool) :
  index < 0 ->
  getVisibility vector index = OutOfRange /\
  setVisibility vector index visible = OutOfRange.
Proof. apply visibility_negative. Qed.

End Inverse.

Lemma walk_offset_witness :
  3 = kindOffset (widgetType Sample.demo 3) Sample.demo
      + relativeIndex Sample.demo 3.
Proof.
  apply (walk_offset Sample.demo 3).
  - vm_compute. split; discriminate.
  - reflexivity.
Defined.

Lemma walk_inverse_witness :
  widgetType Sample.demo (kindOffset WidgetType.Map Sample.demo + 0)
    = WidgetType.Map /\
  relativeIndex Sample.demo (kindOffset WidgetType.Map Sample.demo + 0) = 0.
Proof.
  apply (walk_inverse WidgetType.Map Sample.demo 0).
  - discriminate.
  - vm_compute. split; [discriminate | reflexivity].
  - vm_compute. discriminate.
Defined.

Lemma walk_below_zero_witness :
  widgetType Sample.demo (-7) = WidgetType.Unknown /\
  relativeIndex Sample.demo (-7) = -7.
Proof. apply (walk_below_zero Sample.demo (-7)). reflexivity. Defined.

Lemma visibility_below_zero_witness :
  getVisibility [true; true; true] (-4) = OutOfRange /\
  setVisibility [true; true; true] (-4) false = OutOfRange.
Proof.
  apply (visibility_below_zero [true; true; true] (-4) false). reflexivity.
Defined.
